(** * VeriPlagio: the response-to-highlighted-document pipeline

    A shallow embedding of the Python sources

      - [src/veriplagio/app.py]  (module [Veriplagio] below), the variant
        that parses the report, builds the highlighted document and
        computes the percentage;
      - [src/app.py]             (module [App] below), the variant with
        the report of fixed records, whose parser asks the Source
        Resolver for every source.

    The third variant, [src/veriplagio/veriplagio/app.py], returns the
    rebuilt text alone, without a span list, and is not modelled.

    Python values are modelled as the interpreter has them: a [str] is a
    sequence of Unicode code points, a [float] is an IEEE-754 binary64
    number, an exception is a value of an error type that is threaded
    through a small result monad, and the network (the [requests]
    library) is an explicit environment whose calls are logged. *)

From Stdlib Require Import String Ascii.
From Stdlib Require Import List Bool NArith ZArith Lia.
From Stdlib Require Import Permutation Sorted DecimalString.
From Stdlib Require Import Floats.SpecFloat.
Import ListNotations.

Set Implicit Arguments.
Set Warnings "-register-all".

(* ================================================================== *)
(** ** Python exceptions and the result monad *)
(* ================================================================== *)

Module Py.

(** The subclasses of [Exception] that the modelled code can meet.
    [RequestException] stands for [requests.RequestException] and all of
    its subclasses ([ConnectionError], [Timeout], [HTTPError], ...), and
    [ValueError] for it and its subclasses ([UnicodeEncodeError]). *)
Inductive exn : Type :=
| RequestException
| ValueError
| TypeError
| KeyError
| IndexError
| AttributeError
| ZeroDivisionError
| OverflowError.

Definition is_RequestException (e : exn) : bool :=
  match e with RequestException => true | _ => false end.

Inductive result (A : Type) : Type :=
| Ok (a : A)
| Raise (e : exn).
Arguments Ok {A} a.
Arguments Raise {A} e.

Definition bind {A B} (m : result A) (k : A -> result B) : result B :=
  match m with
  | Ok a => k a
  | Raise e => Raise e
  end.

(** [try: body / except: handler], a bare [except]. *)
Definition try_except {A} (body : result A) (handler : result A) : result A :=
  match body with
  | Ok a => Ok a
  | Raise _ => handler
  end.

(** [for x in l: s = f(s, x)], which an exception leaves at once. *)
Fixpoint for_each {S A} (f : S -> A -> result S) (l : list A) (s : S) : result S :=
  match l with
  | [] => Ok s
  | x :: l' =>
      match f s x with
      | Ok s' => for_each f l' s'
      | Raise e => Raise e
      end
  end.

(** [l[1]] *)
Definition item1 {A} (l : list A) : result A :=
  match l with
  | _ :: x :: _ => Ok x
  | _ => Raise IndexError
  end.

(** [a, b = l] *)
Definition unpack2 {A} (l : list A) : result (A * A) :=
  match l with
  | [a; b] => Ok (a, b)
  | _ => Raise ValueError
  end.

(** [sorted(l, key=key, reverse=True)]: descending keys, and items of
    equal key in the order they had in [l] (the sort is stable). *)
Fixpoint insert_desc {A} (key : A -> N) (x : A) (l : list A) : list A :=
  match l with
  | [] => [x]
  | y :: l' => if (key x <? key y)%N then y :: insert_desc key x l' else x :: l
  end.

Definition sorted_desc {A} (key : A -> N) (l : list A) : list A :=
  fold_right (insert_desc key) [] l.

Definition raises {A} (m : result A) : bool :=
  match m with Ok _ => false | Raise _ => true end.

End Py.
Export Py.

Declare Scope py_scope.
Delimit Scope py_scope with py.
Notation "x <- m ;; k" := (Py.bind m (fun x => k))
  (at level 100, m at next level, right associativity) : py_scope.
Notation "' pat <- m ;; k" := (Py.bind m (fun x => match x with pat => k end))
  (at level 100, pat pattern, m at next level, right associativity) : py_scope.

(* ================================================================== *)
(** ** Python [str] *)
(* ================================================================== *)

Module PyStr.

(** A character is a Unicode code point, a string a list of them. *)
Definition char := N.
Definition str := list char.

Local Open Scope N_scope.

(** The code points of a UTF-8 byte sequence. *)
Fixpoint decode_utf8 (bs : list N) : str :=
  match bs with
  | [] => []
  | b0 :: r0 =>
      if b0 <? 128 then b0 :: decode_utf8 r0
      else
        match r0 with
        | [] => []
        | b1 :: r1 =>
            if b0 <? 224 then ((b0 - 192) * 64 + (b1 - 128)) :: decode_utf8 r1
            else
              match r1 with
              | [] => []
              | b2 :: r2 =>
                  if b0 <? 240
                  then (((b0 - 224) * 64 + (b1 - 128)) * 64 + (b2 - 128)) :: decode_utf8 r2
                  else
                    match r2 with
                    | [] => []
                    | b3 :: r3 =>
                        ((((b0 - 240) * 64 + (b1 - 128)) * 64 + (b2 - 128)) * 64 + (b3 - 128))
                          :: decode_utf8 r3
                    end
              end
        end
  end.

(** The string literals of the source (this file is UTF-8, as the
    source is). *)
Definition lit (s : string) : str :=
  decode_utf8 (map N_of_ascii (list_ascii_of_string s)).

Definition eqb (a b : str) : bool :=
  if list_eq_dec N.eq_dec a b then true else false.

(** [Py_UNICODE_ISSPACE]: what [str.strip()] and [str.split()] treat as
    whitespace. *)
Definition isspace (c : char) : bool :=
     ((9 <=? c) && (c <=? 13))         (* \t \n \v \f \r *)
  || ((28 <=? c) && (c <=? 32))        (* FS GS RS US and space *)
  || (c =? 133) || (c =? 160)          (* NEL, NBSP *)
  || (c =? 5760)                       (* U+1680 *)
  || ((8192 <=? c) && (c <=? 8202))    (* U+2000 .. U+200A *)
  || (c =? 8232) || (c =? 8233)        (* U+2028, U+2029 *)
  || (c =? 8239) || (c =? 8287)        (* U+202F, U+205F *)
  || (c =? 12288).                     (* U+3000 *)

(** The line boundaries of [str.splitlines()]. *)
Definition is_linebreak (c : char) : bool :=
     ((10 <=? c) && (c <=? 13))        (* \n \v \f \r *)
  || ((28 <=? c) && (c <=? 30))        (* FS GS RS *)
  || (c =? 133) || (c =? 8232) || (c =? 8233).

Fixpoint lstrip (s : str) : str :=
  match s with
  | c :: s' => if isspace c then lstrip s' else s
  | [] => []
  end.

Definition rstrip (s : str) : str := rev (lstrip (rev s)).

(** [s.strip()] *)
Definition strip (s : str) : str := rstrip (lstrip s).

(** [s.startswith(p)] *)
Fixpoint startswith (s p : str) : bool :=
  match p with
  | [] => true
  | c :: p' =>
      match s with
      | [] => false
      | d :: s' => (c =? d) && startswith s' p'
      end
  end.

(** The text before and after the first occurrence of [sep] in [s]. *)
Fixpoint cut (s sep : str) : option (str * str) :=
  if startswith s sep then Some ([], skipn (length sep) s)
  else match s with
       | [] => None
       | c :: s' =>
           match cut s' sep with
           | Some (b, a) => Some (c :: b, a)
           | None => None
           end
       end.

(** [sep in s] *)
Definition contains (s sep : str) : bool :=
  match cut s sep with Some _ => true | None => false end.

(** [s.split(sep, 1)] *)
Definition split1 (s sep : str) : result (list str) :=
  match sep with
  | [] => Raise ValueError                     (* empty separator *)
  | _ => match cut s sep with
         | Some (b, a) => Ok [b; a]
         | None => Ok [s]
         end
  end.

(** [s.partition(sep)] *)
Definition partition (s sep : str) : result (str * str * str) :=
  match sep with
  | [] => Raise ValueError                     (* empty separator *)
  | _ => match cut s sep with
         | Some (b, a) => Ok (b, sep, a)
         | None => Ok (s, [], [])
         end
  end.

(** [s.split()]: the maximal runs of non-whitespace characters.  [w] is
    the word being read, last character first. *)
Fixpoint words_from (w : str) (s : str) : list str :=
  match s with
  | [] => match w with [] => [] | _ => [rev w] end
  | c :: s' =>
      if isspace c then
        match w with
        | [] => words_from [] s'
        | _ => rev w :: words_from [] s'
        end
      else words_from (c :: w) s'
  end.

Definition split (s : str) : list str := words_from [] s.

(** [s.splitlines()]: [\r\n] is one boundary, and a final boundary opens
    no empty last line.  [w] is the line being read, reversed. *)
Fixpoint lines_from (w : str) (s : str) : list str :=
  match s with
  | [] => match w with [] => [] | _ => [rev w] end
  | c :: s' =>
      if is_linebreak c then
        match s' with
        | d :: s'' =>
            if (c =? 13) && (d =? 10) then rev w :: lines_from [] s''
            else rev w :: lines_from [] s'
        | [] => [rev w]
        end
      else lines_from (c :: w) s'
  end.

Definition splitlines (s : str) : list str := lines_from [] s.

(** [str(n)] for an [int]. *)
Definition of_Z (z : Z) : str :=
  lit (NilZero.string_of_int (Z.to_int z)).

(** [len(s)] *)
Definition len (s : str) : N := N.of_nat (length s).

End PyStr.
Import PyStr.

(* ================================================================== *)
(** ** Python [float]: IEEE-754 binary64 *)
(* ================================================================== *)

Module B64.

Local Open Scope Z_scope.

Definition prec : Z := 53.
Definition emax : Z := 1024.

Definition float := spec_float.

Definition add : float -> float -> float := SFadd prec emax.
Definition sub : float -> float -> float := SFsub prec emax.
Definition mul : float -> float -> float := SFmul prec emax.
Definition div : float -> float -> float := SFdiv prec emax.
Definition ltb : float -> float -> bool := SFltb.
Definition leb : float -> float -> bool := SFleb.

Definition abs : float -> float := SFabs.

Definition zero : float := S754_zero false.

Definition eqb (x y : float) : bool :=
  match x, y with
  | S754_zero a, S754_zero b => Bool.eqb a b
  | S754_infinity a, S754_infinity b => Bool.eqb a b
  | S754_nan, S754_nan => true
  | S754_finite a m e, S754_finite b m' e' => Bool.eqb a b && Pos.eqb m m' && Z.eqb e e'
  | _, _ => false
  end.

Definition is_zero (x : float) : bool :=
  match x with S754_zero _ => true | _ => false end.

Definition is_finite (x : float) : bool :=
  match x with S754_zero _ | S754_finite _ _ _ => true | _ => false end.

(** [float(n)] for an [int] that a double holds exactly. *)
Definition of_Z (z : Z) : float := binary_normalize prec emax z 0 false.

(** The double nearest (ties to even) to the rational [n / d], [d > 0]:
    the integers enter the division with exponent 0, unrounded, and the
    quotient is rounded once. *)
Definition nearest (n d : Z) : float :=
  match n, d with
  | Zpos n', Zpos d' =>
      SFdiv prec emax (S754_finite false n' 0) (S754_finite false d' 0)
  | Zneg n', Zpos d' =>
      SFdiv prec emax (S754_finite true n' 0) (S754_finite false d' 0)
  | _, _ => zero
  end.

(** A decimal literal of the source, [digits * 10^-scale] ([3.7] is
    [decimal 37 1]): Python reads it as the nearest double. *)
Definition decimal (digits : Z) (scale : Z) : float :=
  nearest digits (10 ^ scale).

(** [a / b] for two non-negative [int]s ([long_true_divide]).  When both
    are below [2^53] CPython converts them to doubles and divides;
    otherwise it rounds the exact quotient once and raises
    [OverflowError] when that is out of range. *)
Definition int_truediv (a b : N) : result float :=
  match b with
  | N0 => Raise ZeroDivisionError
  | Npos _ =>
      if (Z.of_N a <? 2 ^ 53) && (Z.of_N b <? 2 ^ 53)
      then Ok (div (of_Z (Z.of_N a)) (of_Z (Z.of_N b)))
      else match nearest (Z.of_N a) (Z.of_N b) with
           | S754_infinity _ => Raise OverflowError
           | q => Ok q
           end
  end.

(** [n / d] rounded to the nearest integer, ties to the even one
    ([0 <= n], [0 < d]). *)
Definition div_half_even (n d : Z) : Z :=
  let q := n / d in
  match (2 * (n mod d)) ?= d with
  | Lt => q
  | Gt => q + 1
  | Eq => if Z.even q then q else q + 1
  end.

(** [round(x, ndigits)] for a float and [0 <= ndigits] ([double_round] of
    floatobject.c): the exact binary value of [x] is rounded to
    [ndigits] decimals, ties to even, and the decimal so obtained is
    read back as the nearest double.  NaN and infinities round to
    themselves. *)
Definition round (x : float) (ndigits : Z) : float :=
  match x with
  | S754_finite s m e =>
      let scaled := Zpos m * 10 ^ ndigits in          (* |x| * 10^ndigits = scaled * 2^e *)
      let k := match e with
               | Zneg p => div_half_even scaled (2 ^ Zpos p)
               | _ => scaled * 2 ^ e
               end in
      match k with
      | Zpos _ => nearest (if s then - k else k) (10 ^ ndigits)
      | _ => S754_zero s
      end
  | _ => x
  end.

End B64.

(* ================================================================== *)
(** ** Python objects decoded from JSON *)
(* ================================================================== *)

Module Json.

(** What [response.json()] can return, and the [str] objects of the
    program itself.  A [dict] keeps its items in insertion order, its
    keys are strings and distinct. *)
Inductive value : Type :=
| JNull                                   (* None *)
| JBool (b : bool)
| JInt (z : Z)
| JFloat (f : B64.float)
| JStr (s : str)
| JArr (l : list value)
| JObj (items : list (str * value)).

Fixpoint lookup (k : str) (items : list (str * value)) : option value :=
  match items with
  | [] => None
  | (k', v) :: rest => if PyStr.eqb k k' then Some v else lookup k rest
  end.

Definition is_str (k : str) (v : value) : bool :=
  match v with JStr s => PyStr.eqb s k | _ => false end.

(** [k in v] for a [str] [k] *)
Definition py_in (k : str) (v : value) : result bool :=
  match v with
  | JObj items => Ok (match lookup k items with Some _ => true | None => false end)
  | JArr l => Ok (existsb (is_str k) l)
  | JStr s => Ok (contains s k)
  | _ => Raise TypeError                 (* argument is not iterable *)
  end.

(** [len(v)] *)
Definition py_len (v : value) : result N :=
  match v with
  | JObj items => Ok (N.of_nat (length items))
  | JArr l => Ok (N.of_nat (length l))
  | JStr s => Ok (N.of_nat (length s))
  | _ => Raise TypeError                 (* object has no len() *)
  end.

(** [bool(v)], the truth value tested by [if v] *)
Definition truthy (v : value) : bool :=
  match v with
  | JNull => false
  | JBool b => b
  | JInt z => negb (z =? 0)%Z
  | JFloat f => match f with S754_zero _ => false | _ => true end
  | JStr s => match s with [] => false | _ => true end
  | JArr l => match l with [] => false | _ => true end
  | JObj items => match items with [] => false | _ => true end
  end.

(** [v[k]] for a [str] [k] *)
Definition getitem (v : value) (k : str) : result value :=
  match v with
  | JObj items => match lookup k items with
                  | Some x => Ok x
                  | None => Raise KeyError
                  end
  | _ => Raise TypeError                 (* indices must be integers / not subscriptable *)
  end.

(** [v[0]] *)
Definition getitem0 (v : value) : result value :=
  match v with
  | JArr l => match l with x :: _ => Ok x | [] => Raise IndexError end
  | JStr s => match s with c :: _ => Ok (JStr [c]) | [] => Raise IndexError end
  | JObj _ => Raise KeyError             (* the keys of a decoded object are strings *)
  | _ => Raise TypeError                 (* not subscriptable *)
  end.

(** [v.get(k, default)] *)
Definition get (v : value) (k : str) (default : value) : result value :=
  match v with
  | JObj items => Ok (match lookup k items with
                      | Some x => x
                      | None => default
                      end)
  | _ => Raise AttributeError            (* only a dict has .get *)
  end.

(** [v.splitlines()] *)
Definition py_splitlines (v : value) : result (list str) :=
  match v with
  | JStr s => Ok (splitlines s)
  | _ => Raise AttributeError
  end.

End Json.
Import Json.

(* ================================================================== *)
(** ** The network: [requests.get] and [requests.post] *)
(* ================================================================== *)

Module Net.

(** A request as the program parameterises it (the API keys and the
    constant headers come from the process environment). *)
Inductive request : Type :=
| GET (url : str) (engine : str) (q : str) (num : Z)
| POST (url : str) (model : str) (system_content user_content : str).

(** A response: its status code and what [response.json()] does, which
    is to return the decoded body or to raise (the body is not JSON). *)
Record response : Type := {
  status_code : Z;
  json : result value
}.

(** The world outside: the outcome of a request, given all the requests
    sent before it.  A request that gets no response raises. *)
Definition environment := list request -> request -> result response.

(** Computations that talk to the network: they read the log of the
    requests sent so far and return it extended, with a value or with
    the exception that ended them. *)
Definition io (A : Type) : Type := list request -> result A * list request.

Definition ret {A} (a : A) : io A := fun log => (Ok a, log).

Definition lift {A} (r : result A) : io A := fun log => (r, log).

Definition bind {A B} (m : io A) (k : A -> io B) : io B :=
  fun log =>
    match m log with
    | (Ok a, log') => k a log'
    | (Raise e, log') => (Raise e, log')
    end.

(** [try: body / except <class>: handler], where [catches] tells the
    exceptions of the class. *)
Definition try_catch {A} (catches : exn -> bool) (body : io A) (handler : io A) : io A :=
  fun log =>
    match body log with
    | (Ok a, log') => (Ok a, log')
    | (Raise e, log') => if catches e then handler log' else (Raise e, log')
    end.

Definition send (env : environment) (rq : request) : io response :=
  fun log => (env log rq, log ++ [rq]).

(** [response.raise_for_status()]: [HTTPError], a [RequestException],
    for the client and server error codes. *)
Definition raise_for_status (r : response) : result unit :=
  if ((400 <=? status_code r) && (status_code r <? 600))%Z
  then Raise RequestException
  else Ok tt.

End Net.
Import Net.

Declare Scope io_scope.
Delimit Scope io_scope with io.
Notation "x <~ m ;; k" := (Net.bind m (fun x => k))
  (at level 100, m at next level, right associativity) : io_scope.
Notation "' pat <~ m ;; k" := (Net.bind m (fun x => match x with pat => k end))
  (at level 100, pat pattern, m at next level, right associativity) : io_scope.

(* ================================================================== *)
(** ** python-docx: a document as paragraphs of runs *)
(* ================================================================== *)

Module Docx.

Record run : Type := {
  text : str;
  bold : bool;
  color : option (N * N * N)
}.

Definition paragraph := list run.
Definition document := list paragraph.

(** The characters that a text node of the XML tree takes: lxml raises
    [ValueError] for the control characters other than tab, line feed and
    carriage return, and for U+FFFE and U+FFFF; a surrogate does not
    encode ([UnicodeEncodeError], a [ValueError]). *)
Definition xml_char (c : char) : bool :=
  ((c =? 9) || (c =? 10) || (c =? 13)
   || ((32 <=? c) && negb ((55296 <=? c) && (c <=? 57343))
       && negb (c =? 65534) && negb (c =? 65535)))%N.

Definition xml_text (t : str) : bool := forallb xml_char t.

(** How a character given to [add_run] reads back: the run gets a break
    for a line feed and for a carriage return, and a break reads "\n"; a
    tab reads back as a tab. *)
Definition line_break (c : char) : char := if (c =? 13)%N then 10%N else c.

Definition as_written (t : str) : str := map line_break t.

(** [p.add_run(t)]: a new run at the end of the paragraph, whose text is
    set to [t]; the handle returned is its position.  The text between
    the tabs and the breaks goes to text nodes. *)
Definition add_run (p : paragraph) (t : str) : result (paragraph * nat) :=
  if xml_text t
  then Ok (p ++ [{| text := as_written t; bold := false; color := None |}], length p)
  else Raise ValueError.

Fixpoint update (p : paragraph) (i : nat) (f : run -> run) : paragraph :=
  match p, i with
  | [], _ => []
  | r :: p', O => f r :: p'
  | r :: p', S i' => r :: update p' i' f
  end.

(** [r.add_text(t)] on the run with handle [i]: the text is appended,
    as one text node, to that run, wherever the run stands in the
    paragraph. *)
Definition add_text (p : paragraph) (i : nat) (t : str) : result paragraph :=
  if xml_text t
  then Ok (update p i (fun r => {| text := text r ++ t; bold := bold r; color := color r |}))
  else Raise ValueError.

(** [r.font.color.rgb = RGBColor(...)] and [r.font.bold = True] *)
Definition set_color (p : paragraph) (i : nat) (c : N * N * N) : paragraph :=
  update p i (fun r => {| text := text r; bold := bold r; color := Some c |}).

Definition set_bold (p : paragraph) (i : nat) (b : bool) : paragraph :=
  update p i (fun r => {| text := text r; bold := b; color := color r |}).

(** The text of the document: its runs' text, in document order. *)
Definition paragraph_text (p : paragraph) : str := concat (map text p).
Definition document_text (d : document) : str := concat (map paragraph_text d).

Definition highlighted (r : run) : bool :=
  match color r with Some _ => true | None => false end.

End Docx.
Import Docx.

(* ================================================================== *)
(** ** The data model *)
(* ================================================================== *)

(** A PlagiarizedSpan, the dict [{"trecho": ..., "fonte": ...}]. *)
Record PlagiarizedSpan : Type := {
  trecho : str;
  fonte : value
}.

(** ["\n"] *)
Definition NL : str := [10%N].

(* ================================================================== *)
(** ** src/veriplagio/app.py *)
(* ================================================================== *)

Module Veriplagio.

Definition sentinel : str := lit "Fonte não encontrada".

Section Network.

Variable env : environment.

(** [get_source_from_serpapi], lines 42-58: only
    [requests.RequestException] is caught. *)
Definition get_source_from_serpapi (query : str) : io value :=
  let url := lit "https://serpapi.com/search" in
  (found <~ try_catch is_RequestException
     (response <~ send env (GET url (lit "google") query 1) ;;
      _ <~ lift (raise_for_status response) ;;
      data <~ lift (json response) ;;
      has <~ lift (py_in (lit "organic_results") data) ;;
      if has then
        organic <~ lift (getitem data (lit "organic_results")) ;;
        n <~ lift (py_len organic) ;;
        if (0 <? n)%N then
          organic <~ lift (getitem data (lit "organic_results")) ;;
          first <~ lift (getitem0 organic) ;;
          link <~ lift (get first (lit "link") (JStr sentinel)) ;;
          ret (Some link)
        else ret None
      else ret None)
     (ret None) ;;
   ret (match found with
        | Some link => link
        | None => JStr sentinel
        end))%io.

(** The body of the [try] of lines 96-104: the excerpt and the source
    of a finding line. *)
Definition parse_finding (linha : str) : result (str * str) :=
  (parts <- split1 linha (lit "Trecho:") ;;
   second <- item1 parts ;;
   let after_trecho := strip second in
   parts <- split1 after_trecho (lit "- Fonte:") ;;
   '(trecho, fonte_part) <- unpack2 parts ;;
   let trecho := strip trecho in
   let fonte_part := strip fonte_part in
   let fonte := fonte_part in
   Ok (trecho, fonte))%py.

(** The body of the loop of lines 93-115, on the pair
    [(resultado_bruto, trechos_plagio)]. *)
Definition step (st : str * list PlagiarizedSpan) (linha : str)
  : result (str * list PlagiarizedSpan) :=
  let '(resultado_bruto, trechos_plagio) := st in
  if startswith (strip linha) (lit "Trecho") then
    try_except
      ('(trecho, fonte) <- parse_finding linha ;;
       let trechos_plagio :=
         trechos_plagio ++ [{| trecho := trecho; fonte := JStr fonte |}] in
       Ok (resultado_bruto
             ++ (lit "Trecho: " ++ trecho ++ lit " - Fonte: " ++ fonte ++ NL),
           trechos_plagio))%py
      (Ok (resultado_bruto ++ (linha ++ NL), trechos_plagio))
  else Ok (resultado_bruto ++ (linha ++ NL), trechos_plagio).

(** Lines 89-117: the Report Parser proper, from the completion text
    to [(resultado_bruto, trechos_plagio)]. *)
Definition parse_report (deepseek_result : str)
  : result (str * list PlagiarizedSpan) :=
  let linhas := splitlines deepseek_result in
  for_each step linhas ([], []).

Definition user_prompt (text : str) : str :=
  lit "Verifique se esse texto possui plágio na internet e destaque os trechos plagiados. "
    ++ lit "Para cada trecho, informe também a fonte original (por exemplo, a URL ou outra referência). "
    ++ NL ++ NL ++ text.

(** [analyze_plagiarism_with_source], lines 60-117. *)
Definition analyze_plagiarism_with_source (text : str)
  : io (str * list PlagiarizedSpan) :=
  let url := lit "https://api.deepseek.com/v1/chat/completions" in
  (response <~ send env
       (POST url (lit "deepseek-chat")
             (lit "Você é um assistente que detecta plágio comparando textos.")
             (user_prompt text)) ;;
   if negb (status_code response =? 200)%Z then
     ret (lit "Erro na API DeepSeek (status: "
            ++ PyStr.of_Z (status_code response) ++ lit ")", [])
   else
     body <~ lift (json response) ;;
     choices <~ lift (getitem body (lit "choices")) ;;
     choice <~ lift (getitem0 choices) ;;
     message <~ lift (getitem choice (lit "message")) ;;
     deepseek_result <~ lift (getitem message (lit "content")) ;;
     linhas <~ lift (py_splitlines deepseek_result) ;;
     lift (for_each step linhas ([], [])))%io.

End Network.

(** The state of the loop of [highlight_plagiarized_in_docx]: the one
    paragraph of the document and [current_text]. *)
Definition red : N * N * N := (255, 0, 0)%N.

Definition highlight_step (normal_run : nat) (st : paragraph * str) (t : PlagiarizedSpan)
  : result (paragraph * str) :=
  let '(p, current_text) := st in
  let trecho := trecho t in
  if contains current_text trecho then
    ('(before, _, after) <- partition current_text trecho ;;
     p <- add_text p normal_run before ;;
     '(p, plagio_run) <- add_run p trecho ;;
     let p := set_color p plagio_run red in
     let p := set_bold p plagio_run true in
     Ok (p, after))%py
  else Ok (p, current_text).

(** [highlight_plagiarized_in_docx], lines 119-146. *)
Definition highlight_plagiarized_in_docx
    (original_text : str) (trechos_plagio : list PlagiarizedSpan) : result document :=
  let trechos_plagio_ordenados :=
    sorted_desc (fun x => len (trecho x)) trechos_plagio in
  let p : paragraph := [] in
  ('(p, normal_run) <- add_run p [] ;;
   let current_text := original_text in
   '(p, current_text) <-
      for_each (highlight_step normal_run) trechos_plagio_ordenados (p, current_text) ;;
   p <- add_text p normal_run current_text ;;
   Ok [p])%py.

(** [calculate_plagiarism_percentage], lines 148-161. *)
Definition calculate_plagiarism_percentage
    (original_text : str) (trechos_plagio : list PlagiarizedSpan) : result B64.float :=
  let total_words := N.of_nat (length (split original_text)) in
  if (total_words =? 0)%N then Ok B64.zero
  else
    let plag_words :=
      fold_left (fun plag_words item =>
                   (plag_words + N.of_nat (length (split (trecho item))))%N)
                trechos_plagio 0%N in
    (ratio <- B64.int_truediv plag_words total_words ;;
     Ok (B64.round (B64.mul ratio (B64.of_Z 100)) 2))%py.

End Veriplagio.

(* ================================================================== *)
(** ** src/app.py *)
(* ================================================================== *)

Module App.

Definition sentinel : str := lit "Fonte não encontrada".

Section Network.

Variable env : environment.

(** How an f-string renders an object that is not a [str], a
    [bool], an [int] or [None] (the [repr] of floats and containers). *)
Variable repr : value -> str.

(** [f"{v}"] *)
Definition format (v : value) : str :=
  match v with
  | JStr s => s
  | JNull => lit "None"
  | JBool true => lit "True"
  | JBool false => lit "False"
  | JInt z => PyStr.of_Z z
  | _ => repr v
  end.

(** [get_source_from_serpapi], lines 71-91: every [Exception] is
    caught. *)
Definition get_source_from_serpapi (query : str) : io value :=
  let url := lit "https://serpapi.com/search" in
  (found <~ try_catch (fun _ => true)
     (response <~ send env (GET url (lit "google") query 1) ;;
      _ <~ lift (raise_for_status response) ;;
      data <~ lift (json response) ;;
      organic <~ lift (get data (lit "organic_results") (JArr [])) ;;
      if truthy organic then
        n <~ lift (py_len organic) ;;
        if (0 <? n)%N then
          first <~ lift (getitem0 organic) ;;
          link <~ lift (get first (lit "link") (JStr sentinel)) ;;
          ret (Some link)
        else ret None
      else ret None)
     (ret None) ;;
   ret (match found with
        | Some link => link
        | None => JStr sentinel
        end))%io.

(** The body of the [try] of lines 126-135: the excerpt of a finding
    line and the source the Source Resolver gives it. *)
Definition parse_finding (linha : str) : io (str * value) :=
  (parts <~ lift (split1 linha (lit "Trecho:")) ;;
   second <~ lift (item1 parts) ;;
   let after_trecho := strip second in
   if contains after_trecho (lit "- Fonte:") then
     parts <~ lift (split1 after_trecho (lit "- Fonte:")) ;;
     '(trecho, fonte_part) <~ lift (unpack2 parts) ;;
     let trecho := strip trecho in
     fonte <~ get_source_from_serpapi trecho ;;
     ret (trecho, fonte)
   else
     let trecho := after_trecho in
     fonte <~ get_source_from_serpapi trecho ;;
     ret (trecho, fonte))%io.

(** The body of the loop of lines 123-141. *)
Definition step (st : str * list PlagiarizedSpan) (linha : str)
  : io (str * list PlagiarizedSpan) :=
  let '(resultado_bruto, trechos_plagio) := st in
  if startswith (strip linha) (lit "Trecho") then
    try_catch (fun _ => true)
      ('(trecho, fonte) <~ parse_finding linha ;;
       let trechos_plagio :=
         trechos_plagio ++ [{| trecho := trecho; fonte := fonte |}] in
       ret (resultado_bruto
              ++ (lit "Trecho: " ++ trecho ++ lit " - Fonte: " ++ format fonte ++ NL),
            trechos_plagio))%io
      (ret (resultado_bruto ++ (linha ++ NL), trechos_plagio))
  else ret (resultado_bruto ++ (linha ++ NL), trechos_plagio).

Fixpoint for_each_io {S A} (f : S -> A -> io S) (l : list A) (s : S) : io S :=
  match l with
  | [] => ret s
  | x :: l' => (s' <~ f s x ;; for_each_io f l' s')%io
  end.

(** Lines 119-143: the Report Parser proper. *)
Definition parse_report (deepseek_result : str)
  : io (str * list PlagiarizedSpan) :=
  let linhas := splitlines deepseek_result in
  for_each_io step linhas ([], []).

(** [analyze_plagiarism_with_source], lines 93-143. *)
Definition analyze_plagiarism_with_source (text : str)
  : io (str * list PlagiarizedSpan) :=
  let url := lit "https://api.deepseek.com/v1/chat/completions" in
  (response <~ send env
       (POST url (lit "deepseek-chat")
             (lit "Você é um assistente que detecta plágio comparando textos.")
             (Veriplagio.user_prompt text)) ;;
   if negb (status_code response =? 200)%Z then
     ret (lit "Erro na API DeepSeek (status: "
            ++ PyStr.of_Z (status_code response) ++ lit ")", [])
   else
     body <~ lift (json response) ;;
     choices <~ lift (getitem body (lit "choices")) ;;
     choice <~ lift (getitem0 choices) ;;
     message <~ lift (getitem choice (lit "message")) ;;
     deepseek_result <~ lift (getitem message (lit "content")) ;;
     linhas <~ lift (py_splitlines deepseek_result) ;;
     for_each_io step linhas ([], []))%io.

End Network.

(** A record of the report, the dict of lines 155-169. *)
Module Resultado.
Record t : Type := {
  fonte : str;
  termos : Z;
  termos_comuns : Z;
  similitude : B64.float;
  visualizar_link : str
}.
End Resultado.

(** [sum(l)] over floats: the start value [0] becomes [0.0] at the first
    addition. *)
Definition py_sum (l : list B64.float) : B64.float :=
  fold_left B64.add l (B64.of_Z 0).

(** [sum(l)] over floats as CPython 3.12 and later compute it, with the
    compensation of Neumaier's algorithm. *)
Definition compensated_step (st : B64.float * B64.float) (x : B64.float)
  : B64.float * B64.float :=
  let '(f_result, c) := st in
  let t := B64.add f_result x in
  let c :=
    if B64.leb (B64.abs x) (B64.abs f_result)
    then B64.add c (B64.add (B64.sub f_result t) x)
    else B64.add c (B64.add (B64.sub x t) f_result) in
  (t, c).

Definition py_sum_compensated (l : list B64.float) : B64.float :=
  let '(f_result, c) := fold_left compensated_step l (B64.of_Z 0, B64.zero) in
  if negb (B64.is_zero c) && B64.is_finite c then B64.add f_result c else f_result.

(** [verificar_plagio_relatorio], lines 145-172. *)
Definition verificar_plagio_relatorio (texto : str)
  : N * B64.float * list Resultado.t :=
  let palavras_texto := N.of_nat (length (split texto)) in
  let resultados :=
    [ {| Resultado.fonte := lit "https://quantumcloud.com/inovacao.pdf";
         Resultado.termos := 1494;
         Resultado.termos_comuns := 129;
         Resultado.similitude := B64.decimal 37 1;
         Resultado.visualizar_link := lit "#" |};
      {| Resultado.fonte := lit "https://exemplo.com/tecnologia-educacao.pdf";
         Resultado.termos := 999;
         Resultado.termos_comuns := 88;
         Resultado.similitude := B64.decimal 21 1;
         Resultado.visualizar_link := lit "#" |};
      {| Resultado.fonte := lit "https://outroexemplo.com/trabalho-academico.html";
         Resultado.termos := 2000;
         Resultado.termos_comuns := 300;
         Resultado.similitude := B64.decimal 100 1;
         Resultado.visualizar_link := lit "#" |} ] in
  let total_similaridade := py_sum (map Resultado.similitude resultados) in
  (palavras_texto, B64.round total_similaridade 2, resultados).

End App.

(* ================================================================== *)
(** ** src/app.py, the search of the text comparison *)
(* ================================================================== *)

Module AppSearch.

(** A result record, the dict of lines 192-196; its values are what
    [.get] found in the decoded body. *)
Record result_record : Type := {
  title : value;
  link : value;
  snippet : value
}.

(** [for item in v]: the items that the loop visits. *)
Definition py_iter (v : value) : result (list value) :=
  match v with
  | JArr l => Ok l
  | JObj items => Ok (map (fun kv => JStr (fst kv)) items)     (* the keys *)
  | JStr s => Ok (map (fun c => JStr [c]) s)                   (* the characters *)
  | _ => Raise TypeError                                       (* not iterable *)
  end.

Section Network.

Variable env : environment.

(** [str(e)], the message of an exception. *)
Variable message : exn -> str.

(** The body of the loop of lines 191-196. *)
Definition append_result (results : list result_record) (item : value)
  : result (list result_record) :=
  (title <- get item (lit "title") (JStr (lit "Sem título")) ;;
   link <- get item (lit "link") (JStr (lit "#")) ;;
   snippet <- get item (lit "snippet") (JStr (lit "")) ;;
   Ok (results ++ [{| title := title; link := link; snippet := snippet |}]))%py.

(** [search_with_serpapi], lines 174-199. *)
Definition search_with_serpapi (query : str) : io (list result_record) :=
  let url := lit "https://serpapi.com/search" in
  fun log =>
    match
      (response <~ send env (GET url (lit "google") query 3) ;;
       _ <~ lift (raise_for_status response) ;;
       data <~ lift (json response) ;;
       organic <~ lift (get data (lit "organic_results") (JArr [])) ;;
       items <~ lift (py_iter organic) ;;
       lift (for_each append_result items []))%io log
    with
    | (Ok results, log') => (Ok results, log')
    | (Raise e, log') =>
        (Ok [{| title := JStr (lit "Erro ao buscar no SerpApi");
                link := JStr (lit "#");
                snippet := JStr (message e) |}], log')
    end.

End Network.

End AppSearch.

(* ================================================================== *)
(** ** src/veriplagio/app.py, the upload and the routes *)
(* ================================================================== *)

Module VeriplagioWeb.

Local Open Scope N_scope.

Definition is_ascii (c : char) : bool := c <? 128.

Definition ascii_lower (c : char) : char :=
  if (65 <=? c) && (c <=? 90) then c + 32 else c.

(** [s.endswith(p)] *)
Definition endswith (s p : str) : bool := startswith (rev s) (rev p).

(** [s.rsplit(sep, 1)]: the split at the last occurrence of [sep]. *)
Definition rsplit1 (s sep : str) : result (list str) :=
  match sep with
  | [] => Raise ValueError                     (* empty separator *)
  | _ => match cut (rev s) (rev sep) with
         | Some (a, b) => Ok [rev b; rev a]
         | None => Ok [s]
         end
  end.

Definition ALLOWED_EXTENSIONS : list str := [lit "pdf"; lit "docx"].

(** An uploaded file, [request.files["file"]]: its name, and what the
    libraries do with it: [file.save(path)], and the extraction of its
    text by PyMuPDF and by python-docx once it is saved (lines 31-40),
    each of which may raise. *)
Record upload : Type := {
  filename : str;
  save : str -> result unit;
  pdf_text : result str;
  docx_text : result str
}.

Inductive http_method : Type := HTTP_GET | HTTP_POST.

(** What the route reads of the request. *)
Record web_request : Type := {
  method : http_method;
  form_text : option str;          (* request.form, key "text" *)
  file : option upload             (* request.files, key "file" *)
}.

(** The arguments that the route gives to [render_template]. *)
Record page : Type := {
  text : str;
  plagio_result : str;
  percentage : B64.float;
  download_ready : bool
}.

(** What [download_doc] returns. *)
Inductive download : Type :=
| Refused (body : str) (status : Z)
| Attachment (content : list N) (mimetype download_name : str).

Section Web.

Variable env : environment.

(** [str.lower()] on a string that holds a character outside ASCII. *)
Variable unicode_lower : str -> str.

(** [werkzeug.utils.secure_filename] *)
Variable secure_filename : str -> str.

(** The bytes that [doc.save] writes for a document. *)
Variable docx_bytes : document -> list N.

(** [s.lower()] *)
Definition lower (s : str) : str :=
  if forallb is_ascii s then map ascii_lower s else unicode_lower s.

(** [allowed_file], lines 28-29. *)
Definition allowed_file (filename : str) : result bool :=
  if contains filename (lit ".") then
    (parts <- rsplit1 filename (lit ".") ;;
     ext <- item1 parts ;;
     Ok (existsb (PyStr.eqb (lower ext)) ALLOWED_EXTENSIONS))%py
  else Ok false.

(** [os.path.join(app.config['UPLOAD_FOLDER'], filename)], on POSIX. *)
Definition upload_path (filename : str) : str :=
  if startswith filename (lit "/") then filename
  else lit "uploads/" ++ filename.

(** Lines 186-196: the text of the uploaded file, [file_text]. *)
Definition read_upload (rq : web_request) : result str :=
  match file rq with
  | Some f =>
      if negb (PyStr.eqb (filename f) (lit "")) then
        (allowed <- allowed_file (filename f) ;;
         if allowed : bool then
           let name := secure_filename (filename f) in
           let file_path := upload_path name in
           _ <- save f file_path ;;
           if endswith (lower name) (lit ".pdf") then pdf_text f
           else if endswith (lower name) (lit ".docx") then docx_text f
           else Ok (lit "")
         else Ok (lit ""))%py
      else Ok (lit "")
  | None => Ok (lit "")
  end.

(** [verificacao_plagio], lines 178-224, on the buffer [DOC_BUFFER]: the
    page it renders and the new buffer. *)
Definition verificacao_plagio (rq : web_request) (DOC_BUFFER : option (list N))
  : io (page * option (list N)) :=
  match method rq with
  | HTTP_POST =>
      (file_text <~ lift (read_upload rq) ;;
       let form := match form_text rq with Some t => t | None => lit "" end in
       let text := match form with [] => file_text | _ => form end in
       match strip text with
       | [] =>
           ret ({| text := text; plagio_result := lit "";
                   percentage := B64.zero; download_ready := false |}, DOC_BUFFER)
       | _ =>
           ' (resultado_bruto, trechos_plagio) <~
               Veriplagio.analyze_plagiarism_with_source env text ;;
           percentage <~
               lift (Veriplagio.calculate_plagiarism_percentage text trechos_plagio) ;;
           doc <~ lift (Veriplagio.highlight_plagiarized_in_docx text trechos_plagio) ;;
           ret ({| text := text; plagio_result := resultado_bruto;
                   percentage := percentage; download_ready := true |},
                Some (docx_bytes doc))
       end)%io
  | HTTP_GET =>
      ret ({| text := lit ""; plagio_result := lit "";
              percentage := B64.zero; download_ready := false |}, DOC_BUFFER)
  end.

(** [download_doc], lines 226-241. *)
Definition download_doc (DOC_BUFFER : option (list N)) : download :=
  match DOC_BUFFER with
  | None | Some [] => Refused (lit "Nenhum arquivo gerado ainda") 400
  | Some content =>
      Attachment content
        (lit "application/vnd.openxmlformats-officedocument.wordprocessingml.document")
        (lit "resultado_plagio.docx")
  end.

End Web.

End VeriplagioWeb.

(* ================================================================== *)
(** ** src/veriplagio/veriplagio/app.py, the analysis *)
(* ================================================================== *)

Module Inner.

Section Network.

Variable env : environment.

(** How an f-string renders an object that is not a [str], a
    [bool], an [int] or [None]. *)
Variable repr : value -> str.

(** [get_source_from_serpapi], lines 35-51: the text of lines 42-58 of
    src/veriplagio/app.py. *)
Definition get_source_from_serpapi (query : str) : io value :=
  Veriplagio.get_source_from_serpapi env query.

(** The body of the loop of lines 77-83, on [resultado_completo]. *)
Definition step (resultado_completo : str) (linha : str) : io str :=
  if startswith (strip linha) (lit "Trecho") then
    (parts <~ lift (split1 linha (lit "Trecho:")) ;;
     second <~ lift (item1 parts) ;;
     let trecho := strip second in
     fonte <~ get_source_from_serpapi trecho ;;
     ret (resultado_completo
            ++ (lit "Trecho: " ++ trecho ++ lit " - Fonte: " ++ App.format repr fonte ++ NL)))%io
  else ret (resultado_completo ++ (linha ++ NL)).

(** [analyze_plagiarism_with_source], lines 53-85. *)
Definition analyze_plagiarism_with_source (text : str) : io str :=
  let url := lit "https://api.deepseek.com/v1/chat/completions" in
  (response <~ send env
       (POST url (lit "deepseek-chat")
             (lit "Você é um assistente que detecta plágio comparando textos.")
             (Veriplagio.user_prompt text)) ;;
   if (status_code response =? 200)%Z then
     body <~ lift (json response) ;;
     choices <~ lift (getitem body (lit "choices")) ;;
     choice <~ lift (getitem0 choices) ;;
     message <~ lift (getitem choice (lit "message")) ;;
     deepseek_result <~ lift (getitem message (lit "content")) ;;
     linhas <~ lift (py_splitlines deepseek_result) ;;
     App.for_each_io step linhas []
   else
     ret (lit "Erro na API DeepSeek (status: "
            ++ PyStr.of_Z (status_code response) ++ lit ")"))%io.

End Network.

End Inner.

(* ================================================================== *)
(** ** The words of the specification *)
(* ================================================================== *)

Module Spec.

(** The number of maximal runs of non-whitespace characters of [s]: a
    run starts at each non-whitespace character that stands first or
    follows a whitespace character. *)
Fixpoint count_starts (after_space : bool) (s : str) : nat :=
  match s with
  | [] => 0
  | c :: s' =>
      if isspace c then count_starts true s'
      else (if after_space then 1 else 0) + count_starts false s'
  end.

Definition word_count (s : str) : N := N.of_nat (count_starts true s).

Definition sum (l : list N) : N := fold_right N.add 0%N l.

(** The summed word count of the excerpts of a span list. *)
Definition span_words (spans : list PlagiarizedSpan) : N :=
  sum (map (fun sp => word_count (trecho sp)) spans).

(** Python's [round((plag / total) * 100, 2)] on two word counts. *)
Definition percentage (plag total : N) : result B64.float :=
  (ratio <- B64.int_truediv plag total ;;
   Ok (B64.round (B64.mul ratio (B64.of_Z 100)) 2))%py.

(** The decimal [k / 100] lies within half a hundredth of the exact
    percentage [100 * plag / total]: it is that percentage rounded to two
    decimal places. *)
Definition rounds_percentage (k : Z) (plag total : N) : Prop :=
  (2 * Z.abs (k * Z.of_N total - 10000 * Z.of_N plag) <= Z.of_N total)%Z.

Definition rounds_percentageb (k : Z) (plag total : N) : bool :=
  (2 * Z.abs (k * Z.of_N total - 10000 * Z.of_N plag) <=? Z.of_N total)%Z.

(** [percentage plag total] is the double of such a decimal. *)
Definition two_decimals (plag total : N) : bool :=
  match percentage plag total with
  | Ok p =>
      let k := (10000 * Z.of_N plag / Z.of_N total)%Z in
      (B64.eqb p (B64.nearest k 100) && rounds_percentageb k plag total)
      || (B64.eqb p (B64.nearest (k + 1) 100) && rounds_percentageb (k + 1) plag total)
  | Raise _ => false
  end.

(** The integers [0 .. n] *)
Definition upto (n : nat) : list N := map N.of_nat (seq 0 (S n)).

Definition two_decimals_upto (n : nat) : bool :=
  forallb (fun total => forallb (fun plag => two_decimals plag total) (upto n))
          (tl (upto n)).

(** An [int] that a double holds exactly. *)
Definition exact_in_double (n : N) : bool := (Z.of_N n <? 2 ^ 53)%Z.

(** The formula in the words of the specification,
    [round(100 * plag / total, 2)], as Python computes it: the product is
    an exact [int], the quotient is rounded once. *)
Definition claimed_percentage (plag total : N) : result B64.float :=
  (quotient <- B64.int_truediv (100 * plag) total ;;
   Ok (B64.round quotient 2))%py.

(** The same formula without floating point: the exact percentage
    [100 * plag / total] rounded to two decimals, ties to even, in
    hundredths. *)
Definition exact_hundredths (plag total : N) : Z :=
  B64.div_half_even (10000 * Z.of_N plag) (Z.of_N total).

(** A text of [n] words. *)
Definition words (n : nat) : str := concat (repeat (lit "a ") n).

(** The spans are in descending order of excerpt length. *)
Definition longest_first (spans : list PlagiarizedSpan) : Prop :=
  StronglySorted (fun a b => (len (trecho b) <= len (trecho a))%N) spans.

(** The highlighted runs of a document, in document order. *)
Definition highlighted_texts (d : document) : list str :=
  map text (filter highlighted (concat d)).

(** A success status code. *)
Definition is_success (status : Z) : bool :=
  ((200 <=? status) && (status <? 300))%Z.

(** The request of the Source Resolver for a query. *)
Definition search_request (query : str) : request :=
  GET (lit "https://serpapi.com/search") (lit "google") query 1.

(** The request of the External Analysis Client for a text. *)
Definition analysis_request (text : str) : request :=
  POST (lit "https://api.deepseek.com/v1/chat/completions") (lit "deepseek-chat")
       (lit "Você é um assistente que detecta plágio comparando textos.")
       (Veriplagio.user_prompt text).

(** A finding line: it starts, once trimmed, with the marker. *)
Definition is_finding (linha : str) : bool :=
  startswith (strip linha) (lit "Trecho").

(** The line that the parser writes for a finding it has parsed. *)
Definition finding_line (trecho fonte : str) : str :=
  lit "Trecho: " ++ trecho ++ lit " - Fonte: " ++ fonte ++ NL.

(** The excerpt of a finding: the text after the marker, up to the
    source delimiter when there is one, trimmed. *)
Definition excerpt_of (after_trecho : str) : str :=
  match cut after_trecho (lit "- Fonte:") with
  | Some (t, _) => strip t
  | None => after_trecho
  end.

(** What the parser of src/veriplagio/app.py writes for a line, and the
    spans it extracts from it. *)
Definition veriplagio_line (linha : str) : str * list PlagiarizedSpan :=
  if is_finding linha then
    match Veriplagio.parse_finding linha with
    | Ok (t, f) => (finding_line t f, [{| trecho := t; fonte := JStr f |}])
    | Raise _ => (linha ++ NL, [])
    end
  else (linha ++ NL, []).

(** The two finding lines of the examples, and the span that the first
    one names. *)
Definition hello_line : str := lit "Trecho: hello world - Fonte: http://x.test".

Definition bare_line : str := lit "Trecho: hello world".

Definition hello_span (source : value) : PlagiarizedSpan :=
  {| trecho := lit "hello world"; fonte := source |}.

(** A network on which every request fails. *)
Definition offline : environment := fun _ _ => Raise RequestException.

(** A plain run and a highlighted run, as the builder makes them. *)
Definition plain (t : str) : run := {| text := t; bold := false; color := None |}.

Definition highlight (t : str) : run :=
  {| text := t; bold := true; color := Some Veriplagio.red |}.

(** The records that [verificar_plagio_relatorio] returns. *)
Definition relatorio_resultados : list App.Resultado.t :=
  [ {| App.Resultado.fonte := lit "https://quantumcloud.com/inovacao.pdf";
       App.Resultado.termos := 1494;
       App.Resultado.termos_comuns := 129;
       App.Resultado.similitude := B64.decimal 37 1;
       App.Resultado.visualizar_link := lit "#" |};
    {| App.Resultado.fonte := lit "https://exemplo.com/tecnologia-educacao.pdf";
       App.Resultado.termos := 999;
       App.Resultado.termos_comuns := 88;
       App.Resultado.similitude := B64.decimal 21 1;
       App.Resultado.visualizar_link := lit "#" |};
    {| App.Resultado.fonte := lit "https://outroexemplo.com/trabalho-academico.html";
       App.Resultado.termos := 2000;
       App.Resultado.termos_comuns := 300;
       App.Resultado.similitude := B64.decimal 100 1;
       App.Resultado.visualizar_link := lit "#" |} ].

(** A search API whose first organic result is not an object. *)
Definition malformed_results : environment :=
  fun _ _ =>
    Ok {| status_code := 200;
          json := Ok (JObj [(lit "organic_results", JArr [JInt 5])]) |}.

(** An analysis API that answers every request with status 500. *)
Definition server_error : environment :=
  fun _ _ => Ok {| status_code := 500; json := Raise ValueError |}.

End Spec.
Import Spec.

(* ================================================================== *)
(** ** Terms of the further properties *)
(* ================================================================== *)

Module Terms.

(** [l1] is [l2] with some of its items left out, the others in order. *)
Inductive subseq {A : Type} : list A -> list A -> Prop :=
| subseq_nil : subseq [] []
| subseq_skip (x : A) (l1 l2 : list A) : subseq l1 l2 -> subseq l1 (x :: l2)
| subseq_take (x : A) (l1 l2 : list A) : subseq l1 l2 -> subseq (x :: l1) (x :: l2).

(** The text that pieces spell: each pair is the plain text before a
    match and the matched excerpt. *)
Definition weave (pieces : list (str * str)) : str :=
  concat (map (fun pc => fst pc ++ snd pc) pieces).

(** The document that the builder makes of such pieces and the rest of
    the text: one paragraph, whose first run holds all the plain text and
    whose other runs are the excerpts, as they read back. *)
Definition built (pieces : list (str * str)) (rest : str) : document :=
  [ plain (concat (map fst pieces) ++ rest)
      :: map (fun pc => highlight (as_written (snd pc))) pieces ].

(** The excerpts of a span list, longest first, as the builder takes
    them. *)
Definition excerpts_longest_first (spans : list PlagiarizedSpan) : list str :=
  map trecho (sorted_desc (fun x => len (trecho x)) spans).

Definition empty_excerpt (sp : PlagiarizedSpan) : bool :=
  match trecho sp with [] => true | _ => false end.

(** The completion that [analyze_plagiarism_with_source] reads in a
    decoded body: [body["choices"][0]["message"]["content"]]. *)
Definition completion (body : value) : result value :=
  (choices <- getitem body (lit "choices") ;;
   choice <- getitem0 choices ;;
   message <- getitem choice (lit "message") ;;
   getitem message (lit "content"))%py.

(** A decoded body whose completion is [content]. *)
Definition completion_body (content : value) : value :=
  JObj [(lit "choices",
         JArr [JObj [(lit "message", JObj [(lit "content", content)])]])].

(** The request of [search_with_serpapi] for a query. *)
Definition comparison_request (query : str) : request :=
  GET (lit "https://serpapi.com/search") (lit "google") query 3.

Definition is_object (v : value) : bool :=
  match v with JObj _ => true | _ => false end.

(** The record of the text comparison for a result object of the search:
    its title, link and snippet, or the default where it has none. *)
Definition record_of (fields : list (str * value)) : AppSearch.result_record :=
  {| AppSearch.title := match lookup (lit "title") fields with
                        | Some v => v
                        | None => JStr (lit "Sem título")
                        end;
     AppSearch.link := match lookup (lit "link") fields with
                       | Some v => v
                       | None => JStr (lit "#")
                       end;
     AppSearch.snippet := match lookup (lit "snippet") fields with
                          | Some v => v
                          | None => JStr (lit "")
                          end |}.

(** The record that reports a failed search. *)
Definition error_record (msg : str) : AppSearch.result_record :=
  {| AppSearch.title := JStr (lit "Erro ao buscar no SerpApi");
     AppSearch.link := JStr (lit "#");
     AppSearch.snippet := JStr msg |}.

(** No dot in a string. *)
Definition dotless (s : str) : bool := forallb (fun c => negb (c =? 46)%N) s.

(** An extension that is, in lower case, one of the accepted ones. *)
Definition extension_allowed (ext : str) : bool :=
  existsb (PyStr.eqb (map VeriplagioWeb.ascii_lower ext)) [lit "pdf"; lit "docx"].

(** The request without its uploaded file. *)
Definition no_upload (rq : VeriplagioWeb.web_request) : VeriplagioWeb.web_request :=
  {| VeriplagioWeb.method := VeriplagioWeb.method rq;
     VeriplagioWeb.form_text := VeriplagioWeb.form_text rq;
     VeriplagioWeb.file := None |}.

(** The page of a check that analysed nothing. *)
Definition idle_page (text : str) : VeriplagioWeb.page :=
  {| VeriplagioWeb.text := text;
     VeriplagioWeb.plagio_result := lit "";
     VeriplagioWeb.percentage := B64.zero;
     VeriplagioWeb.download_ready := false |}.

(** The attachment that [download_doc] sends for the bytes of a document. *)
Definition attachment (content : list N) : VeriplagioWeb.download :=
  VeriplagioWeb.Attachment content
    (lit "application/vnd.openxmlformats-officedocument.wordprocessingml.document")
    (lit "resultado_plagio.docx").

(** A POST of the plagiarism form. *)
Definition posted (t : option str) (f : option VeriplagioWeb.upload)
  : VeriplagioWeb.web_request :=
  {| VeriplagioWeb.method := VeriplagioWeb.HTTP_POST;
     VeriplagioWeb.form_text := t;
     VeriplagioWeb.file := f |}.

(** An upload that is saved and read without an error. *)
Definition readable (name text : str) : VeriplagioWeb.upload :=
  {| VeriplagioWeb.filename := name;
     VeriplagioWeb.save := fun _ => Ok tt;
     VeriplagioWeb.pdf_text := Ok text;
     VeriplagioWeb.docx_text := Ok text |}.

(** A network that gives every request the same response. *)
Definition answering (r : response) : environment := fun _ _ => Ok r.

(** A line that starts, once trimmed, with the marker "Trecho" and
    holds no "Trecho:". *)
Definition unguarded (linha : str) : bool :=
  is_finding linha && negb (contains linha (lit "Trecho:")).

End Terms.
Import Terms.

(* ================================================================== *)
(** * Properties of the Python library functions *)
(* ================================================================== *)

Unset Implicit Arguments.

Section StrFacts.

Lemma startswith_app (p s : str) :
  startswith s p = true -> s = p ++ skipn (length p) s.
Proof.
  revert s. induction p as [|c p IH]; intros [|d s] H; simpl in *;
    try reflexivity; try discriminate.
  apply andb_true_iff in H as [Hc Hs]. apply N.eqb_eq in Hc. subst d.
  f_equal. now apply IH.
Qed.

Lemma cut_nil (sep : str) :
  cut [] sep = if startswith [] sep then Some ([], skipn (length sep) []) else None.
Proof. reflexivity. Qed.

Lemma cut_cons (c : char) (s sep : str) :
  cut (c :: s) sep =
    if startswith (c :: s) sep then Some ([], skipn (length sep) (c :: s))
    else match cut s sep with
         | Some (b, a) => Some (c :: b, a)
         | None => None
         end.
Proof. reflexivity. Qed.

(** [cut] splits at an occurrence of the separator. *)
Lemma cut_Some (sep s b a : str) :
  cut s sep = Some (b, a) -> s = b ++ sep ++ a.
Proof.
  revert b a. induction s as [|c s IH]; intros b a H.
  - rewrite cut_nil in H. destruct (startswith [] sep) eqn:E; [|discriminate].
    inversion H; subst. now apply startswith_app in E.
  - rewrite cut_cons in H. destruct (startswith (c :: s) sep) eqn:E.
    + inversion H; subst. now apply startswith_app in E.
    + destruct (cut s sep) as [[b' a']|] eqn:E2; [|discriminate].
      inversion H; subst. simpl. f_equal. now apply IH.
Qed.

Lemma partition_Ok (s sep b m a : str) :
  contains s sep = true -> partition s sep = Ok (b, m, a) -> s = b ++ m ++ a /\ m = sep.
Proof.
  unfold contains, partition. destruct sep as [|c sep]; [discriminate 2|].
  destruct (cut s (c :: sep)) as [[b' a']|] eqn:E; [|discriminate].
  intros _ H. inversion H; subst. split; [|reflexivity]. now apply cut_Some.
Qed.

(** [split] yields the maximal runs of non-whitespace characters: their
    number, ... *)
Lemma words_from_length (s w : str) :
  length (words_from w s) =
    match w with
    | [] => count_starts true s
    | _ => S (count_starts false s)
    end.
Proof.
  revert w. induction s as [|c s IH]; intros w; simpl.
  - now destruct w.
  - destruct (isspace c).
    + destruct w; simpl; now rewrite IH.
    + rewrite IH. now destruct w.
Qed.

Lemma split_length (s : str) : N.of_nat (length (split s)) = word_count s.
Proof. unfold split, word_count. now rewrite words_from_length. Qed.

(** ... their content, ... *)
Lemma words_from_concat (s w : str) :
  concat (words_from w s) = rev w ++ filter (fun c => negb (isspace c)) s.
Proof.
  revert w. induction s as [|c s IH]; intros w; simpl.
  - destruct w; simpl; now rewrite ?app_nil_r.
  - destruct (isspace c) eqn:E; simpl.
    + destruct w; simpl; now rewrite IH.
    + rewrite IH. simpl. now rewrite <- app_assoc.
Qed.

Lemma split_concat (s : str) :
  concat (split s) = filter (fun c => negb (isspace c)) s.
Proof. unfold split. now rewrite words_from_concat. Qed.

(** ... and no word is empty or holds a whitespace character. *)
Lemma words_from_words (s w : str) :
  forallb (fun c => negb (isspace c)) w = true ->
  Forall (fun x => x <> [] /\ forallb (fun c => negb (isspace c)) x = true)
         (words_from w s).
Proof.
  revert w. induction s as [|c s IH]; intros w Hw; simpl.
  - destruct w as [|d w]; constructor; [|constructor].
    split.
    + intros E. apply (f_equal (@length _)) in E. rewrite length_rev in E. discriminate.
    + rewrite forallb_forall in *. intros x Hx. apply Hw. now apply in_rev.
  - destruct (isspace c) eqn:E.
    + destruct w as [|d w]; [now apply IH|].
      constructor; [|now apply IH].
      split.
      * intros E'. apply (f_equal (@length _)) in E'. rewrite length_rev in E'. discriminate.
      * rewrite forallb_forall in *. intros x Hx. apply Hw. now apply in_rev.
    + apply IH. simpl. now rewrite E, Hw.
Qed.

Lemma split_words (s : str) :
  Forall (fun x => x <> [] /\ forallb (fun c => negb (isspace c)) x = true) (split s).
Proof. now apply words_from_words. Qed.

(** [sorted(..., reverse=True)] permutes its argument, ... *)
Lemma insert_desc_perm {A} (key : A -> N) (x : A) (l : list A) :
  Permutation (insert_desc key x l) (x :: l).
Proof.
  induction l as [|y l IH]; simpl; [reflexivity|].
  destruct (key x <? key y)%N; [|reflexivity].
  rewrite IH. apply perm_swap.
Qed.

Lemma sorted_desc_perm {A} (key : A -> N) (l : list A) :
  Permutation (sorted_desc key l) l.
Proof.
  induction l as [|x l IH]; simpl; [reflexivity|].
  rewrite insert_desc_perm. now constructor.
Qed.

(** ... puts it in descending order of the key, ... *)
Lemma insert_desc_sorted {A} (key : A -> N) (x : A) (l : list A) :
  StronglySorted (fun a b => (key b <= key a)%N) l ->
  StronglySorted (fun a b => (key b <= key a)%N) (insert_desc key x l).
Proof.
  induction 1 as [|y l Hs IH Hy]; simpl.
  - constructor; constructor.
  - destruct (key x <? key y)%N eqn:E.
    + apply N.ltb_lt in E. constructor; [exact IH|].
      eapply Permutation_Forall; [symmetry; apply insert_desc_perm|].
      constructor; [lia|exact Hy].
    + apply N.ltb_ge in E. constructor; [now constructor|].
      constructor; [exact E|].
      eapply Forall_impl; [|exact Hy]. simpl. intros; lia.
Qed.

Lemma sorted_desc_sorted {A} (key : A -> N) (l : list A) :
  StronglySorted (fun a b => (key b <= key a)%N) (sorted_desc key l).
Proof.
  induction l as [|x l IH]; simpl; [constructor|].
  now apply insert_desc_sorted.
Qed.

(** ... and keeps the items of equal key in their order (stability). *)
Lemma insert_desc_filter {A} (key : A -> N) (k : N) (x : A) (l : list A) :
  filter (fun y => (key y =? k)%N) (insert_desc key x l) =
  filter (fun y => (key y =? k)%N) (x :: l).
Proof.
  induction l as [|y l IH]; simpl; [reflexivity|].
  destruct (key x <? key y)%N eqn:E; [|reflexivity].
  apply N.ltb_lt in E. simpl in *. rewrite IH.
  destruct (key x =? k)%N eqn:Ex; [|reflexivity].
  apply N.eqb_eq in Ex.
  destruct (key y =? k)%N eqn:Ey; [|reflexivity].
  apply N.eqb_eq in Ey. lia.
Qed.

Lemma sorted_desc_stable {A} (key : A -> N) (k : N) (l : list A) :
  filter (fun y => (key y =? k)%N) (sorted_desc key l) =
  filter (fun y => (key y =? k)%N) l.
Proof.
  induction l as [|x l IH]; simpl; [reflexivity|].
  rewrite insert_desc_filter. simpl. now rewrite IH.
Qed.

End StrFacts.

(* ================================================================== *)
(** * The Percentage Calculator *)
(* ================================================================== *)

Section Percentage.

Lemma plag_words_sum (spans : list PlagiarizedSpan) (start : N) :
  fold_left (fun plag_words item =>
               (plag_words + N.of_nat (length (split (trecho item))))%N)
            spans start
  = (start + span_words spans)%N.
Proof.
  revert start. induction spans as [|sp spans IH]; intros start; simpl.
  - unfold span_words. simpl. lia.
  - rewrite IH, split_length. unfold span_words. simpl. lia.
Qed.

Lemma int_truediv_small (a b : N) :
  b <> 0%N -> exact_in_double a && exact_in_double b = true ->
  B64.int_truediv a b = Ok (B64.div (B64.of_Z (Z.of_N a)) (B64.of_Z (Z.of_N b))).
Proof.
  unfold B64.int_truediv, exact_in_double. intros Hb H.
  destruct b; [congruence|]. now rewrite H.
Qed.

Lemma B64_eqb_eq (x y : B64.float) : B64.eqb x y = true -> x = y.
Proof.
  destruct x, y; simpl; try discriminate; try reflexivity.
  - intros H. now apply Bool.eqb_prop in H as ->.
  - intros H. now apply Bool.eqb_prop in H as ->.
  - intros H. apply andb_true_iff in H as [H He]. apply andb_true_iff in H as [Hs Hm].
    apply Bool.eqb_prop in Hs. apply Pos.eqb_eq in Hm. apply Z.eqb_eq in He.
    now subst.
Qed.

Lemma in_upto (n : nat) (x : N) : (x <= N.of_nat n)%N -> In x (upto n).
Proof.
  intros H. unfold upto. rewrite <- (N2Nat.id x). apply in_map.
  apply in_seq. lia.
Qed.

Lemma in_tl_upto (n : nat) (x : N) : (0 < x <= N.of_nat n)%N -> In x (tl (upto n)).
Proof.
  intros H. unfold upto. simpl. rewrite <- (N2Nat.id x). apply in_map.
  apply in_seq. lia.
Qed.

Lemma two_decimals_upto_spec (n : nat) :
  two_decimals_upto n = true ->
  forall plag total,
    (0 < total <= N.of_nat n)%N -> (plag <= N.of_nat n)%N ->
    two_decimals plag total = true.
Proof.
  unfold two_decimals_upto. intros H plag total Ht Hp.
  rewrite forallb_forall in H. specialize (H total (in_tl_upto n total Ht)).
  rewrite forallb_forall in H. exact (H plag (in_upto n plag Hp)).
Qed.

Lemma two_decimals_Ok (plag total : N) :
  two_decimals plag total = true ->
  exists k p,
    percentage plag total = Ok p /\ p = B64.nearest k 100 /\ rounds_percentage k plag total.
Proof.
  unfold two_decimals. intros H.
  destruct (percentage plag total) as [p|e]; [|discriminate].
  apply orb_true_iff in H as [H|H]; apply andb_true_iff in H as [He Hr];
    apply B64_eqb_eq in He; apply Z.leb_le in Hr; eauto.
Qed.

Lemma two_decimals_upto_100 : two_decimals_upto 100 = true.
Proof. vm_compute. reflexivity. Qed.

(** On texts and span lists of at most 100 words the binary64 result is
    the exact percentage rounded to two decimal places: the double
    nearest to a decimal [k / 100] that lies within half a hundredth of
    [100 * plag / total]. *)
Lemma percentage_two_decimals (plag total : N) :
  (0 < total <= 100)%N -> (plag <= 100)%N ->
  exists k p,
    percentage plag total = Ok p /\ p = B64.nearest k 100 /\ rounds_percentage k plag total.
Proof.
  intros Ht Hp. apply two_decimals_Ok.
  exact (two_decimals_upto_spec 100 two_decimals_upto_100 plag total Ht Hp).
Qed.

(** C2 as stated fails on the code.  On a text of 160 words with one
    excerpt of 23 words the Percentage Calculator returns 14.37: the
    quotient 23 / 160 is rounded to a double before it is multiplied by
    100, and the product lies just below 14.375.  The formula of the
    claim, [round(100 * plag / total, 2)], gives 14.38 as Python
    computes it, and 14.38 is also the exact percentage 14.375 rounded
    to two decimals. *)
Lemma percentage_formula_differs :
  word_count (words 160) = 160%N /\
  span_words [{| trecho := words 23; fonte := JNull |}] = 23%N /\
  Veriplagio.calculate_plagiarism_percentage
    (words 160) [{| trecho := words 23; fonte := JNull |}]
  = Ok (B64.decimal 1437 2) /\
  claimed_percentage 23 160 = Ok (B64.decimal 1438 2) /\
  exact_hundredths 23 160 = 1438%Z /\
  B64.eqb (B64.decimal 1437 2) (B64.decimal 1438 2) = false.
Proof. repeat split; vm_compute; reflexivity. Qed.

(** C2, amended.  For every original text and span list the Percentage
    Calculator returns 0.0 when the text has no word, and otherwise
    Python's [round(ratio * 100, 2)], where [ratio] is the summed word
    count of all the span excerpts divided by the word count of the text
    and a word is a maximal run of non-whitespace characters; as long as
    both counts are below 2^53 the division is the binary64 division of
    the two counts and the call returns. *)
Theorem calculate_plagiarism_percentage_formula
    (original_text : str) (trechos_plagio : list PlagiarizedSpan) :
  Veriplagio.calculate_plagiarism_percentage original_text trechos_plagio =
    let plag := span_words trechos_plagio in
    let total := word_count original_text in
    if (total =? 0)%N then Ok B64.zero
    else if exact_in_double plag && exact_in_double total
         then Ok (B64.round
                    (B64.mul (B64.div (B64.of_Z (Z.of_N plag)) (B64.of_Z (Z.of_N total)))
                             (B64.of_Z 100)) 2)
         else percentage plag total.
Proof.
  unfold Veriplagio.calculate_plagiarism_percentage.
  rewrite split_length, plag_words_sum, N.add_0_l. cbv zeta.
  destruct (word_count original_text =? 0)%N eqn:E0; [reflexivity|].
  apply N.eqb_neq in E0.
  destruct (exact_in_double (span_words trechos_plagio)
            && exact_in_double (word_count original_text)) eqn:E; [|reflexivity].
  now rewrite int_truediv_small.
Qed.

(** C10.  The words of every excerpt are counted whether or not the
    excerpt occurs in the text, so the result is not bounded by 100:
    it is 200.0 for the text "a" with the span "b c", which does not
    occur in it, and 200.0 for the text "a b" with the span "a b"
    listed twice. *)
Theorem percentage_exceeds_100 :
  (exists text spans p,
      Forall (fun sp => contains text (trecho sp) = false) spans /\
      Veriplagio.calculate_plagiarism_percentage text spans = Ok p /\
      B64.ltb (B64.of_Z 100) p = true)
  /\
  (exists text spans p,
      Forall (fun sp => contains text (trecho sp) = true) spans /\
      Veriplagio.calculate_plagiarism_percentage text spans = Ok p /\
      B64.ltb (B64.of_Z 100) p = true).
Proof.
  split.
  - exists (lit "a"), [ {| trecho := lit "b c"; fonte := JStr Veriplagio.sentinel |} ],
           (B64.of_Z 200).
    split; [repeat constructor|]. split; vm_compute; reflexivity.
  - exists (lit "a b"),
           [ {| trecho := lit "a b"; fonte := JStr Veriplagio.sentinel |};
             {| trecho := lit "a b"; fonte := JStr Veriplagio.sentinel |} ],
           (B64.of_Z 200).
    split; [repeat constructor|]. split; vm_compute; reflexivity.
Qed.

End Percentage.

(* ================================================================== *)
(** * The report variant of src/app.py *)
(* ================================================================== *)

Section Relatorio.


Lemma verificar_plagio_relatorio_eq (texto : str) :
  App.verificar_plagio_relatorio texto =
  (word_count texto, B64.decimal 158 1, relatorio_resultados).
Proof.
  unfold App.verificar_plagio_relatorio. rewrite split_length.
  f_equal.
Qed.

(** With the compensated [sum] of the later interpreters the total is
    the same. *)
Lemma total_similaridade_compensated :
  B64.round (App.py_sum_compensated (map App.Resultado.similitude relatorio_resultados)) 2
  = B64.decimal 158 1.
Proof. vm_compute. reflexivity. Qed.

(** C9.  For every pair of input texts [verificar_plagio_relatorio]
    returns the same hard-coded list of result records and the same
    total similarity 15.8; the word count returned is the
    whitespace-split word count of the input, and it is the one
    component that differs between some two inputs. *)
Theorem verificar_plagio_relatorio_constant :
  (forall texto1 texto2,
      snd (App.verificar_plagio_relatorio texto1) = relatorio_resultados /\
      snd (App.verificar_plagio_relatorio texto2) = relatorio_resultados /\
      snd (fst (App.verificar_plagio_relatorio texto1)) = B64.decimal 158 1 /\
      snd (fst (App.verificar_plagio_relatorio texto2)) = B64.decimal 158 1 /\
      fst (fst (App.verificar_plagio_relatorio texto1)) = word_count texto1 /\
      fst (fst (App.verificar_plagio_relatorio texto2)) = word_count texto2)
  /\
  (exists texto1 texto2,
      fst (fst (App.verificar_plagio_relatorio texto1))
      <> fst (fst (App.verificar_plagio_relatorio texto2))).
Proof.
  split.
  - intros texto1 texto2. rewrite !verificar_plagio_relatorio_eq. simpl.
    repeat split.
  - exists (lit "um"), (lit "um dois"). rewrite !verificar_plagio_relatorio_eq.
    vm_compute. discriminate.
Qed.

End Relatorio.

(* ================================================================== *)
(** * The Highlighted Document Builder *)
(* ================================================================== *)

Section Highlight.


Lemma update_last (l : paragraph) (r : run) (f : run -> run) :
  update (l ++ [r]) (length l) f = l ++ [f r].
Proof. induction l as [|x l IH]; simpl; [reflexivity|]. now rewrite IH. Qed.

Lemma for_each_cons {S A} (f : S -> A -> result S) (x : A) (l : list A) (s : S) :
  for_each f (x :: l) s =
    match f s x with
    | Ok s' => for_each f l s'
    | Raise e => Raise e
    end.
Proof. reflexivity. Qed.

Lemma xml_text_app (a b : str) : xml_text (a ++ b) = xml_text a && xml_text b.
Proof. apply forallb_app. Qed.

Lemma line_break_idem (c : char) : line_break (line_break c) = line_break c.
Proof.
  unfold line_break. destruct (c =? 13)%N eqn:E; [reflexivity|]. now rewrite E.
Qed.

Lemma as_written_idem (t : str) : as_written (as_written t) = as_written t.
Proof.
  unfold as_written. rewrite map_map. apply map_ext. intros c. apply line_break_idem.
Qed.

(** One turn of the loop when the excerpt occurs in the remaining text
    and XML takes the text: the text before the excerpt goes to the end
    of the first run, the excerpt to a new last run. *)
Lemma highlight_step_match (n : str) (rs : list run) (cur before after : str)
    (t : PlagiarizedSpan) :
  contains cur (trecho t) = true ->
  partition cur (trecho t) = Ok (before, trecho t, after) ->
  xml_text before = true ->
  xml_text (trecho t) = true ->
  Veriplagio.highlight_step 0 (@pair paragraph str (plain n :: rs) cur) t =
    Ok (plain (n ++ before) :: rs ++ [highlight (as_written (trecho t))], after).
Proof.
  intros Hc Hp Hb Ht. unfold Veriplagio.highlight_step. rewrite Hc, Hp.
  cbn [Py.bind]. unfold add_text, add_run. rewrite Hb. cbn [Py.bind update].
  rewrite Ht. cbn [Py.bind].
  unfold set_bold, set_color. simpl. rewrite !update_last. reflexivity.
Qed.

(** The same turn when XML does not take the text before the excerpt, or
    the excerpt. *)
Lemma highlight_step_refused (p : paragraph) (cur before after : str)
    (t : PlagiarizedSpan) :
  contains cur (trecho t) = true ->
  partition cur (trecho t) = Ok (before, trecho t, after) ->
  xml_text before && xml_text (trecho t) = false ->
  Veriplagio.highlight_step 0 (p, cur) t = Raise ValueError.
Proof.
  intros Hc Hp Hx. unfold Veriplagio.highlight_step. rewrite Hc, Hp.
  cbn [Py.bind]. unfold add_text, add_run.
  destruct (xml_text before); [|reflexivity]. cbn [Py.bind].
  simpl in Hx. now rewrite Hx.
Qed.

Lemma highlight_step_skip (p : paragraph) (cur : str) (t : PlagiarizedSpan) :
  contains cur (trecho t) = false ->
  Veriplagio.highlight_step 0 (p, cur) t = Ok (p, cur).
Proof. intros Hc. unfold Veriplagio.highlight_step. now rewrite Hc. Qed.

(** The builder, as the loop over the sorted spans from the one empty
    plain run, and the rest of the text added to that run. *)
Lemma highlight_unfold (T : str) (spans : list PlagiarizedSpan) :
  Veriplagio.highlight_plagiarized_in_docx T spans =
    ('(p, cur) <- for_each (Veriplagio.highlight_step 0)
                    (sorted_desc (fun x => len (trecho x)) spans)
                    (@pair paragraph str [plain []] T) ;;
     p <- add_text p 0 cur ;;
     Ok [p])%py.
Proof. reflexivity. Qed.

(** The loop keeps the first run plain and neither adds nor drops a
    character: the plain run, the highlighted runs and the remaining
    text together are a rearrangement of the original text, but for the
    carriage returns of the excerpts, which read back as line feeds. *)
Lemma highlight_loop_permutation (T : str) (spans : list PlagiarizedSpan) :
  forall (n : str) (rs : list run) (cur : str) p' cur',
    Permutation (as_written (n ++ concat (map text rs) ++ cur)) (as_written T) ->
    for_each (Veriplagio.highlight_step 0) spans (@pair paragraph str (plain n :: rs) cur)
      = Ok (p', cur') ->
    exists n' rs', p' = plain n' :: rs' /\
                   Permutation (as_written (n' ++ concat (map text rs') ++ cur'))
                               (as_written T).
Proof.
  induction spans as [|t spans IH]; intros n rs cur p' cur' HP H.
  - simpl in H. inversion H; subst. now exists n, rs.
  - rewrite for_each_cons in H.
    destruct (contains cur (trecho t)) eqn:Hc.
    + destruct (partition cur (trecho t)) as [[[before m] after]|e] eqn:Hp.
      * destruct (@partition_Ok _ _ _ _ _ Hc Hp) as [Hcur Hm]. subst m.
        destruct (xml_text before && xml_text (trecho t)) eqn:Hx.
        -- apply andb_true_iff in Hx as [Hb Ht].
           rewrite (@highlight_step_match n rs cur before after t Hc Hp Hb Ht) in H.
           apply IH in H; [exact H|].
           rewrite map_app, concat_app. simpl. rewrite app_nil_r.
           rewrite <- HP, Hcur. unfold as_written. rewrite !map_app, map_map.
           rewrite (map_ext _ _ line_break_idem), <- !app_assoc.
           apply Permutation_app_head. rewrite !app_assoc.
           do 2 apply Permutation_app_tail. apply Permutation_app_comm.
        -- rewrite (@highlight_step_refused _ cur before after t Hc Hp Hx) in H.
           discriminate.
      * unfold Veriplagio.highlight_step in H. rewrite Hc, Hp in H. discriminate.
    + rewrite (@highlight_step_skip _ _ _ Hc) in H. now apply IH in H.
Qed.

(** What holds of every document that the builder returns: its text is a
    rearrangement of the original text, but for the carriage returns of
    the highlighted excerpts, which read back as line feeds. *)
Lemma highlight_text_permutation (T : str) (spans : list PlagiarizedSpan) (doc : document) :
  Veriplagio.highlight_plagiarized_in_docx T spans = Ok doc ->
  Permutation (as_written (document_text doc)) (as_written T).
Proof.
  rewrite highlight_unfold.
  destruct (for_each _ _ _) as [[p cur]|e] eqn:E; [|discriminate].
  cbn [Py.bind]. unfold add_text. destruct (xml_text cur); [|discriminate].
  cbn [Py.bind]. intros H. inversion H; subst. clear H.
  apply (@highlight_loop_permutation T _ [] []) in E; [|reflexivity].
  destruct E as (n & rs & -> & HP).
  unfold document_text, paragraph_text. simpl. rewrite app_nil_r, <- HP, <- app_assoc.
  unfold as_written. rewrite !map_app.
  apply Permutation_app_head. apply Permutation_app_comm.
Qed.

(** C4.  The builder runs its loop over the spans sorted by excerpt
    length, longest first, with a cursor on the remaining text.  On
    "the cat sat on the mat" with the excerpts "the cat sat" and "cat",
    in either order, "the cat sat" is the one highlighted run: it is
    consumed first, the remaining text is " on the mat", "cat" no longer
    occurs in it and its turn of the loop changes nothing. *)
Theorem highlight_longest_first :
  (forall T spans,
      Veriplagio.highlight_plagiarized_in_docx T spans =
        ('(p, cur) <- for_each (Veriplagio.highlight_step 0)
                        (sorted_desc (fun x => len (trecho x)) spans) ([plain []], T) ;;
         p <- add_text p 0 cur ;;
         Ok [p])%py
      /\ Permutation (sorted_desc (fun x => len (trecho x)) spans) spans
      /\ longest_first (sorted_desc (fun x => len (trecho x)) spans))
  /\
  (forall source1 source2,
      let long := {| trecho := lit "the cat sat"; fonte := source1 |} in
      let short := {| trecho := lit "cat"; fonte := source2 |} in
      let T := lit "the cat sat on the mat" in
      let doc := [[plain (lit " on the mat"); highlight (lit "the cat sat")]] in
      Veriplagio.highlight_plagiarized_in_docx T [long; short] = Ok doc /\
      Veriplagio.highlight_plagiarized_in_docx T [short; long] = Ok doc /\
      highlighted_texts doc = [lit "the cat sat"] /\
      Veriplagio.highlight_step 0 ([plain []], T) long
        = Ok ([plain []; highlight (lit "the cat sat")], lit " on the mat") /\
      contains (lit " on the mat") (lit "cat") = false /\
      Veriplagio.highlight_step 0
          ([plain []; highlight (lit "the cat sat")], lit " on the mat") short
        = Ok ([plain []; highlight (lit "the cat sat")], lit " on the mat")).
Proof.
  split.
  - intros T spans. split; [reflexivity|]. split.
    + apply sorted_desc_perm.
    + apply (sorted_desc_sorted (fun x => len (trecho x))).
  - intros source1 source2. cbv zeta. repeat split; vm_compute; reflexivity.
Qed.

(** C1 fails on the code.  On "the cat sat on the mat" with the one
    excerpt "cat" the document has two runs, the plain run
    "the  sat on the mat" and then the highlighted run "cat": the text
    before the match and the text after it were both added to the first
    run, so the runs' text in document order is
    "the  sat on the matcat" and not the original text. *)
Theorem highlight_text_reordered :
  let T := lit "the cat sat on the mat" in
  let spans := [ {| trecho := lit "cat"; fonte := JStr (lit "http://x.test") |} ] in
  exists doc,
    Veriplagio.highlight_plagiarized_in_docx T spans = Ok doc /\
    doc = [[plain (lit "the  sat on the mat"); highlight (lit "cat")]] /\
    document_text doc = lit "the  sat on the matcat" /\
    document_text doc <> T.
Proof.
  cbv zeta. eexists. split; [vm_compute; reflexivity|].
  split; [reflexivity|]. split; [reflexivity|]. vm_compute. discriminate.
Qed.

End Highlight.

(* ================================================================== *)
(** * The Source Resolver and the External Analysis Client *)
(* ================================================================== *)

Section Network.

Variable env : environment.

Ltac run_io :=
  unfold Veriplagio.get_source_from_serpapi, App.get_source_from_serpapi,
    Veriplagio.analyze_plagiarism_with_source, App.analyze_plagiarism_with_source,
    search_request, analysis_request, try_catch, Net.bind, send, lift, ret.

(** The resolver of src/app.py sends one request and never raises. *)
Lemma app_get_source_total (query : str) (log : list request) :
  exists v,
    App.get_source_from_serpapi env query log = (Ok v, log ++ [search_request query]).
Proof.
  run_io. destruct (env log _) as [r|e]; simpl; [|eexists; reflexivity].
  destruct (raise_for_status r); simpl; [|eexists; reflexivity].
  destruct (json r) as [data|e]; simpl; [|eexists; reflexivity].
  destruct (get data _ _) as [organic|e]; simpl; [|eexists; reflexivity].
  destruct (truthy organic); simpl; [|eexists; reflexivity].
  destruct (py_len organic) as [n|e]; simpl; [|eexists; reflexivity].
  destruct (0 <? n)%N; simpl; [|eexists; reflexivity].
  destruct (getitem0 organic) as [first|e]; simpl; [|eexists; reflexivity].
  destruct (get first _ _) as [link|e]; simpl; eexists; reflexivity.
Qed.

(** A request that raises a [RequestException] (no connection, a
    timeout) degrades to the sentinel in both variants. *)
Lemma get_source_request_fails (query : str) (log : list request) :
  env log (search_request query) = Raise RequestException ->
  Veriplagio.get_source_from_serpapi env query log
    = (Ok (JStr Veriplagio.sentinel), log ++ [search_request query]) /\
  App.get_source_from_serpapi env query log
    = (Ok (JStr App.sentinel), log ++ [search_request query]).
Proof.
  intros H. unfold search_request in H. split; run_io; now rewrite H.
Qed.

(** A client or server error status (what [raise_for_status] rejects)
    degrades to the sentinel in both variants. *)
Lemma get_source_http_error (query : str) (log : list request) (r : response) :
  env log (search_request query) = Ok r ->
  (400 <= status_code r < 600)%Z ->
  Veriplagio.get_source_from_serpapi env query log
    = (Ok (JStr Veriplagio.sentinel), log ++ [search_request query]) /\
  App.get_source_from_serpapi env query log
    = (Ok (JStr App.sentinel), log ++ [search_request query]).
Proof.
  intros H Hs. unfold search_request in H.
  assert (raise_for_status r = Raise RequestException) as Hr.
  { unfold raise_for_status.
    destruct (400 <=? status_code r)%Z eqn:E1; [|lia].
    destruct (status_code r <? 600)%Z eqn:E2; [reflexivity|lia]. }
  split; run_io; rewrite H; simpl; now rewrite Hr.
Qed.

(** A body whose [organic_results] are missing or empty gives the
    sentinel in both variants. *)
Lemma get_source_no_results (query : str) (log : list request) (r : response)
    (items : list (str * value)) :
  env log (search_request query) = Ok r ->
  raise_for_status r = Ok tt ->
  json r = Ok (JObj items) ->
  lookup (lit "organic_results") items = None
  \/ lookup (lit "organic_results") items = Some (JArr []) ->
  Veriplagio.get_source_from_serpapi env query log
    = (Ok (JStr Veriplagio.sentinel), log ++ [search_request query]) /\
  App.get_source_from_serpapi env query log
    = (Ok (JStr App.sentinel), log ++ [search_request query]).
Proof.
  intros H Hr Hj Hl. unfold search_request in H.
  split; run_io; rewrite H; simpl; rewrite Hr; simpl; rewrite Hj; simpl;
    destruct Hl as [Hl|Hl]; rewrite Hl; reflexivity.
Qed.

(** A body whose first organic result is an object with a link gives
    that link in both variants. *)
Lemma get_source_first_link (query : str) (log : list request) (r : response)
    (items first : list (str * value)) (rest : list value) (link : value) :
  env log (search_request query) = Ok r ->
  raise_for_status r = Ok tt ->
  json r = Ok (JObj items) ->
  lookup (lit "organic_results") items = Some (JArr (JObj first :: rest)) ->
  lookup (lit "link") first = Some link ->
  Veriplagio.get_source_from_serpapi env query log
    = (Ok link, log ++ [search_request query]) /\
  App.get_source_from_serpapi env query log
    = (Ok link, log ++ [search_request query]).
Proof.
  intros H Hr Hj Hl Hk. unfold search_request in H.
  split; run_io; rewrite H; simpl; rewrite Hr; simpl; rewrite Hj; simpl;
    rewrite !Hl; simpl; rewrite Hk; reflexivity.
Qed.

End Network.


(** C3 fails on the code of src/veriplagio/app.py.  When the search
    answers with status 200 and the body [{"organic_results": [5]}], the
    call of [.get] on the first result raises [AttributeError], which
    [except requests.RequestException] does not catch: the resolver
    raises.  On the same answer the resolver of src/app.py, with
    [except Exception], returns the sentinel. *)
Theorem get_source_narrow_except_raises :
  forall query log,
    Veriplagio.get_source_from_serpapi malformed_results query log
      = (Raise AttributeError, log ++ [search_request query]) /\
    App.get_source_from_serpapi malformed_results query log
      = (Ok (JStr App.sentinel), log ++ [search_request query]).
Proof. intros query log. split; reflexivity. Qed.

Section Client.

Variable env : environment.
Variable repr : value -> str.

Lemma analyze_not_200 (text : str) (log : list request) (r : response) :
  env log (analysis_request text) = Ok r ->
  status_code r <> 200%Z ->
  Veriplagio.analyze_plagiarism_with_source env text log
    = (Ok (lit "Erro na API DeepSeek (status: " ++ PyStr.of_Z (status_code r) ++ lit ")", []),
       log ++ [analysis_request text]) /\
  App.analyze_plagiarism_with_source env repr text log
    = (Ok (lit "Erro na API DeepSeek (status: " ++ PyStr.of_Z (status_code r) ++ lit ")", []),
       log ++ [analysis_request text]).
Proof.
  intros H Hs. unfold analysis_request in H.
  apply Z.eqb_neq in Hs.
  split;
    unfold Veriplagio.analyze_plagiarism_with_source, App.analyze_plagiarism_with_source,
      analysis_request, Net.bind, send;
    rewrite H; cbv beta iota; rewrite Hs; unfold ret; cbn [negb]; reflexivity.
Qed.

(** C8.  Whenever the chat-completion request returns a response whose
    status code is not a success code, the External Analysis Client (in
    src/veriplagio/app.py and in src/app.py) returns the error string
    that reports that status code together with an empty list of spans,
    and it has sent that one request and no other. *)
Theorem analyze_reports_status (text : str) (log : list request) (r : response) :
  env log (analysis_request text) = Ok r ->
  is_success (status_code r) = false ->
  Veriplagio.analyze_plagiarism_with_source env text log
    = (Ok (lit "Erro na API DeepSeek (status: " ++ PyStr.of_Z (status_code r) ++ lit ")", []),
       log ++ [analysis_request text]) /\
  App.analyze_plagiarism_with_source env repr text log
    = (Ok (lit "Erro na API DeepSeek (status: " ++ PyStr.of_Z (status_code r) ++ lit ")", []),
       log ++ [analysis_request text]).
Proof.
  intros H Hs. refine (@analyze_not_200 text log r H _).
  intros E. rewrite E in Hs. discriminate.
Qed.

End Client.


Lemma analyze_reports_status_witness :
  Veriplagio.analyze_plagiarism_with_source server_error (lit "um texto") []
    = (Ok (lit "Erro na API DeepSeek (status: " ++ PyStr.of_Z 500 ++ lit ")", []),
       [] ++ [analysis_request (lit "um texto")]) /\
  App.analyze_plagiarism_with_source server_error (fun _ => []) (lit "um texto") []
    = (Ok (lit "Erro na API DeepSeek (status: " ++ PyStr.of_Z 500 ++ lit ")", []),
       [] ++ [analysis_request (lit "um texto")]).
Proof.
  exact (@analyze_reports_status server_error (fun _ => []) (lit "um texto") []
           {| status_code := 500; json := Raise ValueError |} eq_refl eq_refl).
Defined.

Example status_500_message :
  lit "Erro na API DeepSeek (status: " ++ PyStr.of_Z 500 ++ lit ")"
  = lit "Erro na API DeepSeek (status: 500)".
Proof. vm_compute. reflexivity. Qed.

(* ================================================================== *)
(** * The Report Parser *)
(* ================================================================== *)

Section Parser.

Lemma marker_not_empty : lit "Trecho:" <> [].
Proof. vm_compute. discriminate. Qed.

Lemma delimiter_not_empty : lit "- Fonte:" <> [].
Proof. vm_compute. discriminate. Qed.

Lemma split1_cut (s sep : str) :
  sep <> [] ->
  split1 s sep = Ok (match cut s sep with
                     | Some (b, a) => [b; a]
                     | None => [s]
                     end).
Proof.
  intros Hsep. unfold split1. destruct sep; [congruence|].
  now destruct (cut s _) as [[b a]|].
Qed.

Lemma contains_cut (s sep : str) :
  contains s sep = match cut s sep with Some _ => true | None => false end.
Proof. reflexivity. Qed.

(** The parse of a finding line in src/veriplagio/app.py. *)
Lemma veriplagio_parse_finding (linha : str) :
  Veriplagio.parse_finding linha =
    match cut linha (lit "Trecho:") with
    | None => Raise IndexError
    | Some (_, a) =>
        match cut (strip a) (lit "- Fonte:") with
        | None => Raise ValueError
        | Some (t, f) => Ok (strip t, strip f)
        end
    end.
Proof.
  unfold Veriplagio.parse_finding.
  rewrite (split1_cut linha (lit "Trecho:") marker_not_empty).
  destruct (cut linha _) as [[b a]|]; [|reflexivity].
  cbn [Py.bind item1]. rewrite (split1_cut (strip a) (lit "- Fonte:") delimiter_not_empty).
  now destruct (cut (strip a) _) as [[t f]|].
Qed.

Lemma veriplagio_step_line (out : str) (spans : list PlagiarizedSpan) (linha : str) :
  Veriplagio.step (out, spans) linha =
    Ok (out ++ fst (veriplagio_line linha), spans ++ snd (veriplagio_line linha)).
Proof.
  unfold Veriplagio.step, veriplagio_line, is_finding, finding_line.
  destruct (startswith _ _); [|now rewrite app_nil_r].
  destruct (Veriplagio.parse_finding linha) as [[t f]|e]; simpl; [reflexivity|].
  now rewrite app_nil_r.
Qed.

Lemma veriplagio_loop (linhas : list str) (out : str) (spans : list PlagiarizedSpan) :
  for_each Veriplagio.step linhas (out, spans) =
    Ok (out ++ concat (map (fun l => fst (veriplagio_line l)) linhas),
        spans ++ concat (map (fun l => snd (veriplagio_line l)) linhas)).
Proof.
  revert out spans. induction linhas as [|linha linhas IH]; intros out spans.
  - simpl. now rewrite !app_nil_r.
  - rewrite for_each_cons, veriplagio_step_line, IH. simpl.
    now rewrite <- !app_assoc.
Qed.

Lemma Forall2_map_r {A B} (P : A -> B -> Prop) (f : A -> B) (l : list A) :
  (forall x, P x (f x)) -> Forall2 P l (map f l).
Proof. intros H. induction l; simpl; constructor; auto. Qed.

(** C7.  For every completion text the Report Parser of
    src/veriplagio/app.py returns: the rebuilt output is the
    concatenation of one chunk per line, in the order of the lines, and
    the chunk of a line that does not start, once trimmed, with "Trecho",
    or whose parsing raises, is the line itself followed by a newline. *)
Theorem parse_report_never_aborts (deepseek_result : str) :
  exists resultado_bruto trechos_plagio chunks,
    Veriplagio.parse_report deepseek_result = Ok (resultado_bruto, trechos_plagio) /\
    resultado_bruto = concat chunks /\
    Forall2 (fun linha chunk =>
               (startswith (strip linha) (lit "Trecho") = false -> chunk = linha ++ NL) /\
               (Py.raises (Veriplagio.parse_finding linha) = true -> chunk = linha ++ NL))
            (splitlines deepseek_result) chunks.
Proof.
  unfold Veriplagio.parse_report. cbv zeta. rewrite veriplagio_loop.
  do 3 eexists. split; [reflexivity|]. split; [reflexivity|].
  apply Forall2_map_r. intros linha. unfold veriplagio_line, is_finding. split.
  - now intros ->.
  - intros Hr. destruct (startswith _ _); [|reflexivity].
    now destruct (Veriplagio.parse_finding linha) as [[t f]|e].
Qed.

Variable env : environment.
Variable repr : value -> str.

(** The parse of a finding line in src/app.py: the source is asked of
    the Source Resolver, whatever the line says. *)
Lemma app_parse_finding (linha b a : str) (log log' : list request) (fonte : value) :
  cut linha (lit "Trecho:") = Some (b, a) ->
  App.get_source_from_serpapi env (excerpt_of (strip a)) log = (Ok fonte, log') ->
  App.parse_finding env linha log = (Ok (excerpt_of (strip a), fonte), log').
Proof.
  intros Hcut Hsrc. unfold App.parse_finding, Net.bind, lift.
  rewrite (split1_cut linha (lit "Trecho:") marker_not_empty), Hcut. cbn [item1].
  unfold excerpt_of in *. rewrite contains_cut.
  rewrite (split1_cut (strip a) (lit "- Fonte:") delimiter_not_empty).
  destruct (cut (strip a) _) as [[t f]|]; cbn [unpack2]; now rewrite Hsrc.
Qed.

Lemma app_step_finding (out : str) (spans : list PlagiarizedSpan)
    (linha b a : str) (log log' : list request) (fonte : value) :
  is_finding linha = true ->
  cut linha (lit "Trecho:") = Some (b, a) ->
  App.get_source_from_serpapi env (excerpt_of (strip a)) log = (Ok fonte, log') ->
  App.step env repr (out, spans) linha log =
    (Ok (out ++ finding_line (excerpt_of (strip a)) (App.format repr fonte),
         spans ++ [{| trecho := excerpt_of (strip a); fonte := fonte |}]),
     log').
Proof.
  intros Hf Hcut Hsrc. unfold App.step. unfold is_finding in Hf. rewrite Hf.
  unfold try_catch, Net.bind. now rewrite (app_parse_finding linha b a log log' fonte Hcut Hsrc).
Qed.

End Parser.

Section ParserVariants.

(** C5 as stated fails in src/app.py.  With the network down, the line
    "Trecho: hello world - Fonte: http://x.test" gives one span whose
    excerpt is "hello world" and whose source is the sentinel, not
    "http://x.test": the source written on the line is dropped and the
    Source Resolver is asked instead. *)
Lemma report_line_source_replaced :
  fst (App.parse_report offline (fun _ => []) hello_line [])
    = Ok (finding_line (lit "hello world") App.sentinel, [hello_span (JStr App.sentinel)])
  /\ hello_span (JStr App.sentinel) <> hello_span (JStr (lit "http://x.test")).
Proof. split; [vm_compute; reflexivity|]. vm_compute. discriminate. Qed.

(** C5, amended.  On the line "Trecho: hello world - Fonte: http://x.test"
    the Report Parser of src/veriplagio/app.py yields exactly one span,
    with excerpt "hello world" and source "http://x.test", and rebuilds
    the line; the Report Parser of src/app.py yields exactly one span
    with excerpt "hello world" whose source is the answer of the Source
    Resolver to the query "hello world", for which it sends one search
    request. *)
Theorem report_line_with_source :
  Veriplagio.parse_report hello_line
    = Ok (hello_line ++ NL, [hello_span (JStr (lit "http://x.test"))])
  /\
  forall (env : environment) (repr : value -> str) (log : list request),
  exists fonte : value,
    App.get_source_from_serpapi env (lit "hello world") log
      = (Ok fonte, log ++ [search_request (lit "hello world")]) /\
    App.parse_report env repr hello_line log
      = (Ok (finding_line (lit "hello world") (App.format repr fonte), [hello_span fonte]),
         log ++ [search_request (lit "hello world")]).
Proof.
  split; [vm_compute; reflexivity|].
  intros env repr log.
  destruct (app_get_source_total env (lit "hello world") log) as [fonte Hsrc].
  exists fonte. split; [exact Hsrc|].
  assert (Hl : splitlines hello_line = [hello_line]) by (vm_compute; reflexivity).
  assert (Hf : is_finding hello_line = true) by (vm_compute; reflexivity).
  assert (Hc : cut hello_line (lit "Trecho:")
               = Some ([], lit " hello world - Fonte: http://x.test"))
    by (vm_compute; reflexivity).
  assert (He : excerpt_of (strip (lit " hello world - Fonte: http://x.test"))
               = lit "hello world")
    by (vm_compute; reflexivity).
  rewrite <- He in Hsrc.
  unfold App.parse_report. cbv zeta. rewrite Hl.
  cbn [App.for_each_io]. unfold Net.bind.
  change (@pair (list char) (list PlagiarizedSpan) [] [])
    with (@pair str (list PlagiarizedSpan) [] []).
  rewrite (app_step_finding env repr [] [] hello_line [] _ log _ fonte Hf Hc Hsrc).
  rewrite He. reflexivity.
Qed.

(** C6 as stated fails in src/veriplagio/app.py.  The line
    "Trecho: hello world" has no "- Fonte:" delimiter: the unpacking of
    line 98 raises, the bare [except] passes the line through, and no span
    is extracted. *)
Lemma bare_finding_passed_through :
  Veriplagio.parse_report bare_line = Ok (bare_line ++ NL, []).
Proof. vm_compute. reflexivity. Qed.

(** C6, amended.  For every finding line that holds the marker "Trecho:"
    and no "- Fonte:" delimiter after it, the Report Parser of src/app.py
    takes the trimmed text after the marker as the excerpt, asks the
    Source Resolver for its source with one search request, and appends
    the span and the rebuilt line; the Report Parser of
    src/veriplagio/app.py passes such a line through unparsed and
    extracts no span. *)
Theorem bare_finding_line
    (env : environment) (repr : value -> str)
    (out : str) (spans : list PlagiarizedSpan) (linha b a : str) (log : list request) :
  is_finding linha = true ->
  cut linha (lit "Trecho:") = Some (b, a) ->
  contains (strip a) (lit "- Fonte:") = false ->
  (exists fonte : value,
      App.get_source_from_serpapi env (strip a) log
        = (Ok fonte, log ++ [search_request (strip a)]) /\
      App.step env repr (out, spans) linha log
        = (Ok (out ++ finding_line (strip a) (App.format repr fonte),
               spans ++ [{| trecho := strip a; fonte := fonte |}]),
           log ++ [search_request (strip a)]))
  /\ Veriplagio.step (out, spans) linha = Ok (out ++ (linha ++ NL), spans).
Proof.
  intros Hf Hcut Hno.
  rewrite contains_cut in Hno.
  destruct (cut (strip a) (lit "- Fonte:")) as [p|] eqn:Hd; [discriminate|].
  assert (He : excerpt_of (strip a) = strip a).
  { unfold excerpt_of. now rewrite Hd. }
  split.
  - destruct (app_get_source_total env (strip a) log) as [fonte Hsrc].
    exists fonte. split; [exact Hsrc|].
    rewrite <- He in Hsrc at 1.
    rewrite (app_step_finding env repr out spans linha b a log _ fonte Hf Hcut Hsrc).
    now rewrite He.
  - rewrite veriplagio_step_line. unfold veriplagio_line.
    rewrite Hf, veriplagio_parse_finding, Hcut, Hd. simpl. now rewrite app_nil_r.
Qed.

Lemma bare_finding_line_witness :
  (exists fonte : value,
      App.get_source_from_serpapi offline (strip (lit " hello world")) []
        = (Ok fonte, [] ++ [search_request (strip (lit " hello world"))]) /\
      App.step offline (fun _ => []) ([], []) bare_line []
        = (Ok ([] ++ finding_line (strip (lit " hello world")) (App.format (fun _ => []) fonte),
               [] ++ [{| trecho := strip (lit " hello world"); fonte := fonte |}]),
           [] ++ [search_request (strip (lit " hello world"))]))
  /\ Veriplagio.step ([], []) bare_line = Ok ([] ++ (bare_line ++ NL), []).
Proof.
  refine (bare_finding_line offline (fun _ => []) [] [] bare_line [] (lit " hello world") []
            _ _ _); vm_compute; reflexivity.
Defined.

End ParserVariants.

(* ================================================================== *)
(** * The models on known values *)
(* ================================================================== *)

Section Examples.

Example strip_example : strip (lit "  Trecho: a  ") = lit "Trecho: a".
Proof. vm_compute. reflexivity. Qed.

Example split_example : split (lit " the  cat sat ") = [lit "the"; lit "cat"; lit "sat"].
Proof. vm_compute. reflexivity. Qed.

Example splitlines_example :
  splitlines ([97; 13; 10; 98; 10; 10; 99; 10]%N) = [[97]; [98]; []; [99]]%N.
Proof. vm_compute. reflexivity. Qed.

Example sentinel_example :
  Veriplagio.sentinel
  = lit "Fonte n" ++ [227%N] ++ lit "o encontrada".
Proof. vm_compute. reflexivity. Qed.

(** The doubles of the literals 3.7, 2.1 and 15.8, by mantissa and
    exponent. *)
Example decimal_3_7 : B64.decimal 37 1 = S754_finite false 8331659310635418 (-51).
Proof. vm_compute. reflexivity. Qed.

Example decimal_2_1 : B64.decimal 21 1 = S754_finite false 4728779608739021 (-51).
Proof. vm_compute. reflexivity. Qed.

Example decimal_15_8 : B64.decimal 158 1 = S754_finite false 8894609264056730 (-49).
Proof. vm_compute. reflexivity. Qed.

(** [3.7 + 2.1] is [5.800000000000001]. *)
Example add_3_7_2_1 :
  B64.add (B64.decimal 37 1) (B64.decimal 21 1) = S754_finite false 6530219459687220 (-50).
Proof. vm_compute. reflexivity. Qed.

(** [round(2.675, 2)] is [2.67]: the double of 2.675 lies below it. *)
Example round_2_675 : B64.round (B64.decimal 2675 3) 2 = B64.decimal 267 2.
Proof. vm_compute. reflexivity. Qed.

(** [round(0.125, 2)] is [0.12]: an exact tie goes to the even digit. *)
Example round_0_125 : B64.round (B64.decimal 125 3) 2 = B64.decimal 12 2.
Proof. vm_compute. reflexivity. Qed.

(** One word of three is 33.33 percent, two of three 66.67. *)
Example percentage_1_of_3 : percentage 1 3 = Ok (B64.decimal 3333 2).
Proof. vm_compute. reflexivity. Qed.

Example percentage_2_of_3 : percentage 2 3 = Ok (B64.decimal 6667 2).
Proof. vm_compute. reflexivity. Qed.

(** 23 words of 160: the quotient 23 / 160 is rounded before it is
    multiplied, the product is 14.374999999999998 and the result 14.37. *)
Example percentage_23_of_160 : percentage 23 160 = Ok (B64.decimal 1437 2).
Proof. vm_compute. reflexivity. Qed.

End Examples.

(* ================================================================== *)
(** * Further properties *)
(* ================================================================== *)

Lemma digits2_pos_size (p : positive) : digits2_pos p = Pos.size p.
Proof. induction p; simpl; now rewrite ?IHp. Qed.

Lemma digits2_pos_le_53 (p : positive) :
  (Zpos p < 2 ^ 53)%Z -> (Zpos (digits2_pos p) <= 53)%Z.
Proof.
  intros H. rewrite digits2_pos_size.
  destruct (Z_le_gt_dec (Zpos (Pos.size p)) 53) as [Hle|Hgt]; [exact Hle|exfalso].
  pose proof (Pos.size_le p) as Hs.
  apply Pos2Z.pos_le_pos in Hs. rewrite Pos2Z.inj_pow in Hs.
  assert (2 ^ 54 <= 2 ^ Zpos (Pos.size p))%Z by (apply Z.pow_le_mono_r; lia).
  change (Zpos p~0) with (2 * Zpos p)%Z in Hs.
  change (2 ^ 54)%Z with (2 * 2 ^ 53)%Z in H0. lia.
Qed.

Lemma digits2_pos_iter_xO (p k : positive) :
  digits2_pos (Pos.iter xO p k) = (digits2_pos p + k)%positive.
Proof.
  induction k using Pos.peano_ind.
  - simpl. now rewrite Pos.add_1_r.
  - rewrite Pos.iter_succ. simpl. rewrite IHk. now rewrite Pos.add_succ_r.
Qed.

Lemma round_aux_canonical (mz : positive) (ez : Z) :
  digits2_pos mz = 53%positive -> (-1074 <= ez <= 971)%Z ->
  binary_round_aux 53 1024 false (Zpos mz) ez loc_Exact = S754_finite false mz ez.
Proof.
  intros Hd He.
  unfold binary_round_aux, shr_fexp, fexp, emin. cbn [Zdigits2]. rewrite Hd.
  replace (Z.max (53 + ez - 53) (3 - 1024 - 53) - ez)%Z with 0%Z by lia.
  cbn [shr shr_record_of_loc shr_m loc_of_shr_record round_nearest_even Zdigits2 shr_r shr_s].
  rewrite Hd.
  replace (Z.max (53 + ez - 53) (3 - 1024 - 53) - ez)%Z with 0%Z by lia.
  cbn [shr shr_record_of_loc shr_m].
  destruct (ez <=? 1024 - 53)%Z eqn:E; [reflexivity|]. apply Z.leb_gt in E. lia.
Qed.

Lemma of_Z_finite (p : positive) :
  (Zpos p < 2 ^ 53)%Z ->
  exists m e, B64.of_Z (Zpos p) = S754_finite false m e.
Proof.
  intros H. pose proof (digits2_pos_le_53 p H) as Hd.
  unfold B64.of_Z, binary_normalize, binary_round, B64.prec, B64.emax.
  unfold fexp at 1, emin. rewrite Z.add_0_r.
  replace (Z.max (Zpos (digits2_pos p) - 53) (3 - 1024 - 53))%Z
    with (Zpos (digits2_pos p) - 53)%Z by lia.
  unfold shl_align. rewrite Z.sub_0_r.
  destruct (Zpos (digits2_pos p) - 53)%Z as [|k|k] eqn:E.
  - do 2 eexists. apply round_aux_canonical; [|lia].
    assert (Zpos (digits2_pos p) = 53)%Z by lia. congruence.
  - lia.
  - do 2 eexists. rewrite <- E. apply round_aux_canonical; [|lia].
    rewrite digits2_pos_iter_xO.
    assert (Zpos (digits2_pos p + k) = 53)%Z by (rewrite Pos2Z.inj_add; lia).
    congruence.
Qed.

Lemma div_eucl_shiftl_self (m : positive) :
  Z.div_eucl (Z.shiftl (Zpos m) 53) (Zpos m) = ((2 ^ 53)%Z, 0%Z).
Proof.
  pose proof (Z.shiftl_mul_pow2 (Zpos m) 53 ltac:(lia)) as Hs.
  assert (Z.shiftl (Zpos m) 53 / Zpos m = 2 ^ 53)%Z as Hq.
  { rewrite Hs, Z.mul_comm. apply Z.div_mul. lia. }
  assert (Z.shiftl (Zpos m) 53 mod Zpos m = 0)%Z as Hr.
  { rewrite Hs, Z.mul_comm. apply Z.mod_mul. lia. }
  unfold Z.div, Z.modulo in Hq, Hr.
  destruct (Z.div_eucl (Z.shiftl (Zpos m) 53) (Zpos m)) as [q r]. simpl in *. congruence.
Qed.

Lemma div_self (m : positive) (e : Z) :
  B64.div (S754_finite false m e) (S754_finite false m e) = B64.of_Z 1.
Proof.
  unfold B64.div, SFdiv, SFdiv_core_binary, B64.prec, B64.emax. cbn [Zdigits2 xorb].
  replace (Zpos (digits2_pos m) + e - (Zpos (digits2_pos m) + e))%Z with 0%Z by lia.
  replace (e - e)%Z with 0%Z by lia.
  change (Z.min (fexp 53 1024 0) 0)%Z with (-53)%Z.
  change (0 - -53)%Z with 53%Z. cbv iota.
  rewrite div_eucl_shiftl_self.
  unfold new_location.
  destruct (Z.even (Zpos m)); vm_compute; reflexivity.
Qed.

(* ================================================================== *)
(** * More on the Percentage Calculator *)
(* ================================================================== *)

Section PercentageMore.

Lemma calculate_unfold (text : str) (spans : list PlagiarizedSpan) :
  Veriplagio.calculate_plagiarism_percentage text spans =
    if (word_count text =? 0)%N then Ok B64.zero
    else percentage (span_words spans) (word_count text).
Proof.
  unfold Veriplagio.calculate_plagiarism_percentage.
  now rewrite split_length, plag_words_sum, N.add_0_l.
Qed.

Lemma of_N_finite (n : N) :
  (0 < n)%N -> exact_in_double n = true ->
  exists m e, B64.of_Z (Z.of_N n) = S754_finite false m e.
Proof.
  unfold exact_in_double. intros Hn H. destruct n as [|p]; [lia|].
  apply Z.ltb_lt in H. now apply of_Z_finite.
Qed.

Lemma percentage_zero (total : N) : (0 < total)%N -> percentage 0 total = Ok B64.zero.
Proof.
  intros Ht. unfold percentage, B64.int_truediv.
  destruct total as [|p]; [lia|].
  destruct ((Z.of_N 0 <? 2 ^ 53)%Z && (Z.of_N (Npos p) <? 2 ^ 53)%Z) eqn:E.
  - apply andb_true_iff in E as [_ E].
    destruct (of_N_finite (Npos p) Ht E) as (m & e & Hf). rewrite Hf.
    vm_compute. reflexivity.
  - reflexivity.
Qed.

Lemma percentage_full (total : N) :
  (0 < total)%N -> exact_in_double total = true ->
  percentage total total = Ok (B64.of_Z 100).
Proof.
  intros Ht He. unfold percentage.
  rewrite int_truediv_small; [|lia|now rewrite He].
  destruct (of_N_finite total Ht He) as (m & e & Hf). rewrite Hf.
  cbn [Py.bind]. rewrite div_self. vm_compute. reflexivity.
Qed.

Lemma sum_perm (l l' : list N) : Permutation l l' -> Spec.sum l = Spec.sum l'.
Proof.
  induction 1; simpl; lia.
Qed.

(** X1.  With an empty span list the Percentage Calculator returns 0.0
    for every text, with or without words. *)
Theorem percentage_no_spans (original_text : str) :
  Veriplagio.calculate_plagiarism_percentage original_text [] = Ok B64.zero.
Proof.
  rewrite calculate_unfold.
  destruct (word_count original_text =? 0)%N eqn:E; [reflexivity|].
  apply N.eqb_neq in E. apply percentage_zero. lia.
Qed.

(** X2.  The percentage does not depend on the order of the spans. *)
Theorem percentage_order_independent
    (original_text : str) (spans spans' : list PlagiarizedSpan) :
  Permutation spans spans' ->
  Veriplagio.calculate_plagiarism_percentage original_text spans
  = Veriplagio.calculate_plagiarism_percentage original_text spans'.
Proof.
  intros HP. rewrite !calculate_unfold. unfold span_words.
  rewrite (sum_perm _ _ (Permutation_map (fun sp => word_count (trecho sp)) HP)).
  reflexivity.
Qed.

Lemma percentage_order_independent_witness :
  Veriplagio.calculate_plagiarism_percentage (lit "the cat sat on the mat")
    [hello_span JNull; {| trecho := lit "cat"; fonte := JNull |}]
  = Veriplagio.calculate_plagiarism_percentage (lit "the cat sat on the mat")
    [{| trecho := lit "cat"; fonte := JNull |}; hello_span JNull].
Proof.
  apply percentage_order_independent. apply perm_swap.
Defined.

(** X3.  When the excerpts have together as many words as the text, and
    the text has at least one word (and fewer than 2^53), the percentage
    is exactly 100.0. *)
Theorem percentage_all_flagged (original_text : str) (spans : list PlagiarizedSpan) :
  span_words spans = word_count original_text ->
  (0 < word_count original_text)%N ->
  exact_in_double (word_count original_text) = true ->
  Veriplagio.calculate_plagiarism_percentage original_text spans = Ok (B64.of_Z 100).
Proof.
  intros Hs Hp He. rewrite calculate_unfold, Hs.
  destruct (word_count original_text =? 0)%N eqn:E.
  - apply N.eqb_eq in E. lia.
  - now apply percentage_full.
Qed.

Lemma percentage_all_flagged_witness :
  Veriplagio.calculate_plagiarism_percentage (lit "the cat sat on the mat")
    [{| trecho := lit "on the mat"; fonte := JNull |};
     {| trecho := lit "the cat sat"; fonte := JNull |}]
  = Ok (B64.of_Z 100).
Proof.
  apply percentage_all_flagged; vm_compute; reflexivity.
Defined.

End PercentageMore.

(* ================================================================== *)
(** * More on the Highlighted Document Builder *)
(* ================================================================== *)

Section HighlightMore.

Lemma contains_empty (s : str) : contains s [] = true.
Proof. unfold contains. destruct s; [rewrite cut_nil|rewrite cut_cons]; reflexivity. Qed.

Lemma highlight_step_empty (p : paragraph) (cur : str) (t : PlagiarizedSpan) :
  empty_excerpt t = true ->
  Veriplagio.highlight_step 0 (p, cur) t = Raise ValueError.
Proof.
  unfold empty_excerpt, Veriplagio.highlight_step. intros H.
  destruct (trecho t); [|discriminate]. now rewrite contains_empty.
Qed.

(** Every exception of a turn of the loop is a [ValueError]. *)
Lemma highlight_step_raises (p : paragraph) (cur : str) (t : PlagiarizedSpan) (e : exn) :
  Veriplagio.highlight_step 0 (p, cur) t = Raise e -> e = ValueError.
Proof.
  unfold Veriplagio.highlight_step.
  destruct (contains cur (trecho t)); [|discriminate].
  destruct (partition cur (trecho t)) as [[[before m] after]|e0] eqn:Hp.
  - cbn [Py.bind]. unfold add_text, add_run.
    destruct (xml_text before); cbn [Py.bind]; [|congruence].
    destruct (xml_text (trecho t)); cbn [Py.bind]; [discriminate|congruence].
  - cbn [Py.bind]. intros H. inversion H; subst e0. clear H.
    unfold partition in Hp. destruct (trecho t) as [|c s]; [congruence|].
    destruct (cut cur (c :: s)) as [[b a]|]; discriminate.
Qed.

Lemma highlight_loop_raises (l : list PlagiarizedSpan) (p : paragraph) (cur : str)
    (e : exn) :
  for_each (Veriplagio.highlight_step 0) l (p, cur) = Raise e -> e = ValueError.
Proof.
  revert p cur. induction l as [|t l IH]; intros p cur H; [discriminate|].
  rewrite for_each_cons in H.
  destruct (Veriplagio.highlight_step 0 (p, cur) t) as [[p1 cur1]|e1] eqn:E.
  - now apply IH in H.
  - inversion H; subst. now apply highlight_step_raises in E.
Qed.

(** A turn of the loop on a text that XML takes, for an excerpt that is
    not empty, returns, and XML takes the text that remains. *)
Lemma highlight_step_ok (p : paragraph) (cur : str) (t : PlagiarizedSpan) :
  empty_excerpt t = false ->
  xml_text cur = true ->
  exists p' cur',
    Veriplagio.highlight_step 0 (p, cur) t = Ok (p', cur') /\ xml_text cur' = true.
Proof.
  unfold empty_excerpt. intros H Hx.
  destruct (contains cur (trecho t)) eqn:Hc.
  - destruct (partition cur (trecho t)) as [[[before m] after]|e] eqn:Hp.
    + destruct (partition_Ok _ _ _ _ _ Hc Hp) as [Hcur Hm]. subst m.
      rewrite Hcur, !xml_text_app in Hx.
      apply andb_true_iff in Hx as [Hb Hx]. apply andb_true_iff in Hx as [Ht Ha].
      unfold Veriplagio.highlight_step. rewrite Hc, Hp. cbn [Py.bind].
      unfold add_text, add_run. rewrite Hb. cbn [Py.bind]. rewrite Ht. cbn [Py.bind].
      eauto.
    + unfold partition in Hp. destruct (trecho t) as [|c s]; [discriminate|].
      destruct (cut cur (c :: s)) as [[b a]|]; discriminate.
  - rewrite (highlight_step_skip _ _ _ Hc). eauto.
Qed.

Lemma highlight_loop_ok (l : list PlagiarizedSpan) (p : paragraph) (cur : str) :
  existsb empty_excerpt l = false ->
  xml_text cur = true ->
  exists p' cur',
    for_each (Veriplagio.highlight_step 0) l (p, cur) = Ok (p', cur') /\
    xml_text cur' = true.
Proof.
  revert p cur. induction l as [|t l IH]; intros p cur He Hx.
  - simpl. eauto.
  - cbn [existsb] in He. apply orb_false_iff in He as [Ht Hl].
    rewrite for_each_cons.
    destruct (highlight_step_ok p cur t Ht Hx) as (p1 & cur1 & -> & Hx1).
    now apply IH.
Qed.

Lemma existsb_insert_desc {A} (f : A -> bool) (key : A -> N) (x : A) (l : list A) :
  existsb f (insert_desc key x l) = f x || existsb f l.
Proof.
  induction l as [|y l IH]; simpl; [reflexivity|].
  destruct (key x <? key y)%N; simpl; [|reflexivity].
  rewrite IH. now destruct (f x), (f y).
Qed.

Lemma existsb_sorted_desc {A} (f : A -> bool) (key : A -> N) (l : list A) :
  existsb f (sorted_desc key l) = existsb f l.
Proof.
  induction l as [|x l IH]; simpl; [reflexivity|].
  now rewrite existsb_insert_desc, IH.
Qed.

(** The state of the loop when it returns: the text it has consumed is
    cut into pieces "plain text, excerpt", which XML takes; no excerpt of
    the list is empty. *)
Lemma highlight_loop_shape (l : list PlagiarizedSpan) :
  forall (n : str) (rs : list run) (cur : str) p' cur',
    for_each (Veriplagio.highlight_step 0) l (@pair paragraph str (plain n :: rs) cur)
      = Ok (p', cur') ->
    exists pieces : list (str * str),
      p' = plain (n ++ concat (map fst pieces))
             :: rs ++ map (fun pc => highlight (as_written (snd pc))) pieces /\
      cur = weave pieces ++ cur' /\
      subseq (map snd pieces) (map trecho l) /\
      xml_text (weave pieces) = true /\
      existsb empty_excerpt l = false.
Proof.
  induction l as [|t l IH]; intros n rs cur p' cur' H.
  - simpl in H. inversion H; subst. exists []. simpl.
    rewrite !app_nil_r. repeat split. constructor.
  - rewrite for_each_cons in H. cbn [existsb].
    destruct (empty_excerpt t) eqn:Ee.
    { rewrite (highlight_step_empty _ _ _ Ee) in H. discriminate. }
    destruct (contains cur (trecho t)) eqn:Hc.
    + destruct (partition cur (trecho t)) as [[[before m] after]|e] eqn:Hp.
      * destruct (partition_Ok _ _ _ _ _ Hc Hp) as [Hcur Hm]. subst m.
        destruct (xml_text before && xml_text (trecho t)) eqn:Hx.
        -- apply andb_true_iff in Hx as [Hb Ht].
           rewrite (highlight_step_match n rs cur before after t Hc Hp Hb Ht) in H.
           apply IH in H. destruct H as (pieces & Hp' & Hafter & Hsub & Hxml & Hne).
           exists ((before, trecho t) :: pieces). simpl. repeat split.
           ++ rewrite Hp'. rewrite <- !app_assoc. reflexivity.
           ++ unfold weave in *. simpl. rewrite Hcur, Hafter, <- !app_assoc. reflexivity.
           ++ now constructor.
           ++ unfold weave in *. simpl. rewrite !xml_text_app, Hb, Ht. exact Hxml.
           ++ exact Hne.
        -- rewrite (highlight_step_refused _ cur before after t Hc Hp Hx) in H.
           discriminate.
      * unfold Veriplagio.highlight_step in H. rewrite Hc, Hp in H. discriminate.
    + rewrite (highlight_step_skip _ _ _ Hc) in H. apply IH in H.
      destruct H as (pieces & Hp' & Hcur & Hsub & Hxml & Hne).
      exists pieces. repeat split; trivial. simpl. now constructor.
Qed.

(** When the builder raises and when it returns. *)
Lemma highlight_outcome (T : str) (spans : list PlagiarizedSpan) :
  if existsb empty_excerpt spans || negb (xml_text T)
  then Veriplagio.highlight_plagiarized_in_docx T spans = Raise ValueError
  else exists doc, Veriplagio.highlight_plagiarized_in_docx T spans = Ok doc.
Proof.
  rewrite highlight_unfold.
  destruct (existsb empty_excerpt spans || negb (xml_text T)) eqn:C.
  - destruct (for_each _ _ _) as [[p cur]|e] eqn:E.
    + apply (highlight_loop_shape _ [] []) in E.
      destruct E as (pieces & _ & HT & _ & Hxml & Hne).
      rewrite existsb_sorted_desc in Hne. rewrite Hne in C. cbn [orb] in C.
      apply negb_true_iff in C. rewrite HT, xml_text_app, Hxml in C. cbn [andb] in C.
      cbn [Py.bind]. unfold add_text. now rewrite C.
    + apply highlight_loop_raises in E. now subst e.
  - apply orb_false_iff in C as [Hne Hx]. apply negb_false_iff in Hx.
    rewrite <- (existsb_sorted_desc _ (fun x => len (trecho x))) in Hne.
    destruct (highlight_loop_ok _ [plain []] T Hne Hx) as (p' & cur' & -> & Hx').
    cbn [Py.bind]. unfold add_text. rewrite Hx'. cbn [Py.bind]. eauto.
Qed.

(** X4.  The builder raises exactly when some span has an empty excerpt
    (the [partition] of line 135 rejects an empty separator) or the
    original text holds a character that XML does not take (a control
    character other than tab, line feed and carriage return, U+FFFE,
    U+FFFF, a surrogate), and what it raises is a [ValueError]; on every
    other input it returns a document. *)
Theorem highlight_raises_on_empty_excerpt
    (original_text : str) (trechos_plagio : list PlagiarizedSpan) :
  if existsb empty_excerpt trechos_plagio || negb (xml_text original_text)
  then Veriplagio.highlight_plagiarized_in_docx original_text trechos_plagio
       = Raise ValueError
  else exists doc,
      Veriplagio.highlight_plagiarized_in_docx original_text trechos_plagio = Ok doc.
Proof. exact (highlight_outcome original_text trechos_plagio). Qed.

(** The shape of every document that the builder returns. *)
Lemma highlight_shape (T : str) (spans : list PlagiarizedSpan) (doc : document) :
  Veriplagio.highlight_plagiarized_in_docx T spans = Ok doc ->
  exists (pieces : list (str * str)) (rest : str),
    T = weave pieces ++ rest /\
    doc = built pieces rest /\
    subseq (map snd pieces) (excerpts_longest_first spans).
Proof.
  rewrite highlight_unfold.
  destruct (for_each _ _ _) as [[p cur]|e] eqn:E; [|discriminate].
  cbn [Py.bind]. unfold add_text. destruct (xml_text cur); [|discriminate].
  cbn [Py.bind]. intros H. inversion H; subst. clear H.
  apply (highlight_loop_shape _ [] []) in E.
  destruct E as (pieces & -> & HT & Hsub & _ & _).
  exists pieces, cur. split; [exact HT|]. split; [|exact Hsub].
  unfold built, plain. simpl. reflexivity.
Qed.

(** X5.  Every document that the builder returns has this shape: the
    original text is cut, from left to right, into pieces "plain text,
    excerpt" and a rest; the one paragraph holds first a plain run with
    all the plain texts and the rest, joined, and then one bold red run
    per excerpt, which reads as the excerpt with a line feed for each
    carriage return; the excerpts are taken, in order, from the span
    list sorted longest first. *)
Theorem highlight_document_shape
    (original_text : str) (trechos_plagio : list PlagiarizedSpan) (doc : document) :
  Veriplagio.highlight_plagiarized_in_docx original_text trechos_plagio = Ok doc ->
  exists (pieces : list (str * str)) (rest : str),
    original_text = weave pieces ++ rest /\
    doc = built pieces rest /\
    subseq (map snd pieces) (excerpts_longest_first trechos_plagio).
Proof. exact (highlight_shape original_text trechos_plagio doc). Qed.

Lemma highlight_document_shape_witness :
  exists (pieces : list (str * str)) (rest : str),
    [120; 32; 97; 13; 98; 32; 121]%N = weave pieces ++ rest /\
    [[plain [120; 32; 32; 121]%N; highlight [97; 10; 98]%N]] = built pieces rest /\
    subseq (map snd pieces)
           (excerpts_longest_first [{| trecho := [97; 13; 98]%N; fonte := JNull |}]).
Proof.
  apply (highlight_document_shape [120; 32; 97; 13; 98; 32; 121]%N
           [{| trecho := [97; 13; 98]%N; fonte := JNull |}]).
  vm_compute. reflexivity.
Defined.

Lemma subseq_Forall {A} (P : A -> Prop) (l1 l2 : list A) :
  subseq l1 l2 -> Forall P l2 -> Forall P l1.
Proof.
  induction 1; intros HF; trivial.
  - inversion HF; subst. auto.
  - inversion HF; subst. constructor; auto.
Qed.

Lemma subseq_sorted {A} (R : A -> A -> Prop) (l1 l2 : list A) :
  subseq l1 l2 -> StronglySorted R l2 -> StronglySorted R l1.
Proof.
  induction 1; intros HS; trivial.
  - inversion HS; subst. auto.
  - inversion HS; subst. constructor; [auto|].
    eapply subseq_Forall; eauto.
Qed.

Lemma subseq_length {A} (l1 l2 : list A) : subseq l1 l2 -> length l1 <= length l2.
Proof. induction 1; simpl; lia. Qed.

Lemma sorted_map {A B} (f : A -> B) (R : B -> B -> Prop) (l : list A) :
  StronglySorted (fun a b => R (f a) (f b)) l -> StronglySorted R (map f l).
Proof.
  induction 1; simpl; constructor; trivial.
  rewrite Forall_map. exact H0.
Qed.

Lemma highlighted_texts_built (pieces : list (str * str)) (rest : str) :
  highlighted_texts (built pieces rest) = map as_written (map snd pieces).
Proof.
  unfold highlighted_texts, built. simpl. rewrite app_nil_r.
  induction pieces as [|pc pieces IH]; simpl; [reflexivity|]. now rewrite IH.
Qed.

Lemma weave_occurs (pieces : list (str * str)) (rest : str) :
  Forall (fun x => exists b a, weave pieces ++ rest = b ++ x ++ a) (map snd pieces).
Proof.
  induction pieces as [|[p x] pieces IH]; simpl; constructor.
  - exists p, (weave pieces ++ rest). unfold weave. simpl.
    now rewrite <- !app_assoc.
  - eapply Forall_impl; [|exact IH]. simpl.
    intros y (b & a & E). exists ((p ++ x) ++ b), a.
    unfold weave in *. simpl. rewrite <- !app_assoc. now rewrite E.
Qed.

Lemma len_as_written (t : str) : len (as_written t) = len t.
Proof. unfold len, as_written. now rewrite length_map. Qed.

Lemma sorted_as_written (l : list str) :
  StronglySorted (fun a b => (len b <= len a)%N) l ->
  StronglySorted (fun a b => (len b <= len a)%N) (map as_written l).
Proof.
  intros HS. apply sorted_map. induction HS; constructor; trivial.
  eapply Forall_impl; [|exact H]. cbv beta. intros b Hb. now rewrite !len_as_written.
Qed.

(** X6.  Each highlighted run of a document that the builder returns
    reads as an excerpt of the span list that occurs in the original
    text, with a line feed for each carriage return; the highlighted
    runs are at most as many as the spans, and they stand in the
    document longest first, which is the order of the loop and not the
    order of the text. *)
Theorem highlight_runs_longest_first
    (original_text : str) (trechos_plagio : list PlagiarizedSpan) (doc : document) :
  Veriplagio.highlight_plagiarized_in_docx original_text trechos_plagio = Ok doc ->
  Forall (fun r => exists x, r = as_written x /\
                             In x (map trecho trechos_plagio) /\
                             exists b a, original_text = b ++ x ++ a)
         (highlighted_texts doc) /\
  StronglySorted (fun a b => (len b <= len a)%N) (highlighted_texts doc) /\
  length (highlighted_texts doc) <= length trechos_plagio.
Proof.
  intros H. apply highlight_shape in H.
  destruct H as (pieces & rest & HT & -> & Hsub).
  rewrite highlighted_texts_built. unfold excerpts_longest_first in Hsub.
  split; [|split].
  - rewrite Forall_map.
    assert (Forall (fun x => In x (map trecho trechos_plagio) /\
                             exists b a, original_text = b ++ x ++ a)
                   (map snd pieces)) as HF.
    { apply Forall_and.
      - eapply subseq_Forall; [exact Hsub|]. apply Forall_forall. intros x Hx.
        eapply Permutation_in; [|exact Hx]. apply Permutation_map, sorted_desc_perm.
      - rewrite HT. apply weave_occurs. }
    eapply Forall_impl; [|exact HF]. intros x [Hin Hocc]. exists x. auto.
  - apply sorted_as_written.
    eapply subseq_sorted; [exact Hsub|]. apply sorted_map.
    apply (sorted_desc_sorted (fun x => len (trecho x))).
  - apply subseq_length in Hsub. rewrite !length_map in Hsub.
    rewrite (Permutation_length (sorted_desc_perm _ trechos_plagio)) in Hsub.
    now rewrite !length_map.
Qed.

Lemma highlight_runs_longest_first_witness :
  let doc := [[plain (lit "the  on  mat"); highlight (lit "cat sat");
               highlight (lit "the")]] in
  let T := lit "the cat sat on the mat" in
  let S := [{| trecho := lit "the"; fonte := JNull |};
            {| trecho := lit "cat sat"; fonte := JNull |}] in
  Forall (fun r => exists x, r = as_written x /\ In x (map trecho S) /\
                             exists b a, T = b ++ x ++ a)
         (highlighted_texts doc) /\
  StronglySorted (fun a b => (len b <= len a)%N) (highlighted_texts doc) /\
  length (highlighted_texts doc) <= length S.
Proof.
  apply (highlight_runs_longest_first (lit "the cat sat on the mat")
           [{| trecho := lit "the"; fonte := JNull |};
            {| trecho := lit "cat sat"; fonte := JNull |}]).
  vm_compute. reflexivity.
Defined.

(** X7.  No character is added or removed by the builder, but for the
    carriage returns of the highlighted excerpts, which read back as
    line feeds: with a line feed for each carriage return on both sides,
    the text of every document it returns, run after run, is a
    rearrangement of the original text. *)
Theorem highlight_keeps_characters
    (original_text : str) (trechos_plagio : list PlagiarizedSpan) (doc : document) :
  Veriplagio.highlight_plagiarized_in_docx original_text trechos_plagio = Ok doc ->
  Permutation (as_written (document_text doc)) (as_written original_text).
Proof. exact (highlight_text_permutation original_text trechos_plagio doc). Qed.

Lemma highlight_keeps_characters_witness :
  Permutation
    (as_written (document_text [[plain [120; 32; 32; 121]%N; highlight [97; 10; 98]%N]]))
    (as_written [120; 32; 97; 13; 98; 32; 121]%N).
Proof.
  apply (highlight_keeps_characters [120; 32; 97; 13; 98; 32; 121]%N
           [{| trecho := [97; 13; 98]%N; fonte := JNull |}]).
  vm_compute. reflexivity.
Defined.

Lemma highlight_loop_no_match (l : list PlagiarizedSpan) (p : paragraph) (cur : str) :
  Forall (fun sp => contains cur (trecho sp) = false) l ->
  for_each (Veriplagio.highlight_step 0) l (p, cur) = Ok (p, cur).
Proof.
  induction 1 as [|t l Ht Hl IH]; [reflexivity|].
  rewrite for_each_cons, (highlight_step_skip _ _ _ Ht). exact IH.
Qed.

(** The builder when no excerpt occurs in the text. *)
Lemma highlight_no_match (T : str) (spans : list PlagiarizedSpan) :
  Forall (fun sp => contains T (trecho sp) = false) spans ->
  Veriplagio.highlight_plagiarized_in_docx T spans
  = if xml_text T then Ok [[plain T]] else Raise ValueError.
Proof.
  intros H. rewrite highlight_unfold.
  rewrite highlight_loop_no_match.
  - cbn [Py.bind]. unfold add_text. now destruct (xml_text T).
  - eapply Permutation_Forall; [|exact H].
    symmetry. apply sorted_desc_perm.
Qed.

(** X8.  When no excerpt of the span list occurs in the original text
    (so also for the empty span list) the builder returns the document of
    one plain run that holds the original text, unchanged, if XML takes
    every character of the text, and raises [ValueError] if not. *)
Theorem highlight_without_match
    (original_text : str) (trechos_plagio : list PlagiarizedSpan) :
  Forall (fun sp => contains original_text (trecho sp) = false) trechos_plagio ->
  Veriplagio.highlight_plagiarized_in_docx original_text trechos_plagio
  = if xml_text original_text then Ok [[plain original_text]] else Raise ValueError.
Proof. exact (highlight_no_match original_text trechos_plagio). Qed.

Lemma highlight_without_match_witness :
  Veriplagio.highlight_plagiarized_in_docx [117; 109; 12; 116]%N
    [{| trecho := lit "dog"; fonte := JNull |}]
  = (if xml_text [117; 109; 12; 116]%N
     then Ok [[plain [117; 109; 12; 116]%N]] else Raise ValueError).
Proof.
  apply highlight_without_match. repeat constructor.
Defined.

End HighlightMore.

(* ================================================================== *)
(** * More on the Report Parser *)
(* ================================================================== *)

Section ParserMore.

Lemma lstrip_idem (s : str) : lstrip (lstrip s) = lstrip s.
Proof.
  induction s as [|c s IH]; simpl; [reflexivity|].
  destruct (isspace c) eqn:E; [exact IH|]. simpl. now rewrite E.
Qed.

Lemma lstrip_head (s : str) :
  lstrip s = [] \/ exists c y, lstrip s = c :: y /\ isspace c = false.
Proof.
  induction s as [|c s IH]; simpl; [now left|].
  destruct (isspace c) eqn:E; [exact IH|]. right. now exists c, s.
Qed.

Lemma lstrip_app_nonspace (a b : str) (c : char) :
  isspace c = false -> lstrip (a ++ c :: b) = lstrip a ++ c :: b.
Proof.
  intros Hc. induction a as [|d a IH]; simpl.
  - now rewrite Hc.
  - now destruct (isspace d).
Qed.

Lemma lstrip_app_space (a : str) (c : char) :
  isspace c = true ->
  lstrip (a ++ [c]) = match lstrip a with [] => [] | _ => lstrip a ++ [c] end.
Proof.
  intros Hc. induction a as [|d a IH]; simpl.
  - now rewrite Hc.
  - destruct (isspace d); [exact IH|reflexivity].
Qed.

Lemma rstrip_app_nonspace (l y : str) (c : char) :
  isspace c = false -> rstrip (l ++ c :: y) = l ++ c :: rstrip y.
Proof.
  intros Hc. unfold rstrip.
  rewrite rev_app_distr. simpl. rewrite <- app_assoc. simpl.
  rewrite (lstrip_app_nonspace _ _ _ Hc), rev_app_distr. simpl.
  now rewrite rev_involutive, <- app_assoc.
Qed.

Lemma rstrip_cons_nonspace (c : char) (y : str) :
  isspace c = false -> rstrip (c :: y) = c :: rstrip y.
Proof. intros Hc. exact (rstrip_app_nonspace [] y c Hc). Qed.

Lemma rstrip_cons_space (c : char) (y : str) :
  isspace c = true ->
  rstrip (c :: y) = match rstrip y with [] => [] | _ => c :: rstrip y end.
Proof.
  intros Hc. unfold rstrip. simpl. rewrite (lstrip_app_space _ _ Hc).
  destruct (lstrip (rev y)) as [|d z] eqn:E; [reflexivity|].
  rewrite rev_app_distr. simpl.
  destruct (rev z ++ [d]) eqn:E2; [now destruct (rev z)|reflexivity].
Qed.

Lemma rstrip_idem (s : str) : rstrip (rstrip s) = rstrip s.
Proof. unfold rstrip. now rewrite rev_involutive, lstrip_idem. Qed.

Lemma lstrip_rstrip (s : str) : lstrip (rstrip s) = rstrip (lstrip s).
Proof.
  induction s as [|c s IH]; [reflexivity|].
  destruct (isspace c) eqn:E.
  - rewrite (rstrip_cons_space c s E). simpl lstrip at 2. rewrite E, <- IH.
    destruct (rstrip s) eqn:Er; [reflexivity|]. simpl. now rewrite E.
  - rewrite (rstrip_cons_nonspace c s E). simpl. rewrite E.
    now rewrite (rstrip_cons_nonspace c s E).
Qed.

(** [strip] trims: its result has no whitespace at either end, so that
    stripping it again changes nothing. *)
Lemma strip_idem (s : str) : strip (strip s) = strip s.
Proof.
  unfold strip. rewrite lstrip_rstrip, lstrip_idem. apply rstrip_idem.
Qed.

Lemma strip_rstrip (s : str) : strip (rstrip s) = strip s.
Proof. unfold strip. rewrite lstrip_rstrip. apply rstrip_idem. Qed.

Lemma veriplagio_line_spans (linha : str) :
  Forall (fun sp => strip (trecho sp) = trecho sp /\
                    exists f, fonte sp = JStr f /\ strip f = f)
         (snd (veriplagio_line linha)) /\
  length (snd (veriplagio_line linha)) <= (if is_finding linha then 1 else 0).
Proof.
  unfold veriplagio_line. destruct (is_finding linha); [|simpl; auto].
  rewrite veriplagio_parse_finding.
  destruct (cut linha _) as [[b a]|]; [|simpl; auto].
  destruct (cut (strip a) _) as [[t f]|]; [|simpl; auto].
  simpl. split; [|lia]. constructor; [|constructor].
  split; [apply strip_idem|]. exists (strip f). split; [reflexivity|apply strip_idem].
Qed.

(** X9.  Whatever the completion text, the spans that the Report Parser
    of src/veriplagio/app.py extracts have a trimmed excerpt and a
    trimmed source (no whitespace at either end, both are [str]), and
    there are at most as many spans as lines that start, once trimmed,
    with "Trecho". *)
Theorem parse_report_spans_trimmed
    (deepseek_result resultado_bruto : str) (trechos_plagio : list PlagiarizedSpan) :
  Veriplagio.parse_report deepseek_result = Ok (resultado_bruto, trechos_plagio) ->
  Forall (fun sp => strip (trecho sp) = trecho sp /\
                    exists f, fonte sp = JStr f /\ strip f = f)
         trechos_plagio /\
  length trechos_plagio <= length (filter is_finding (splitlines deepseek_result)).
Proof.
  unfold Veriplagio.parse_report. cbv zeta. rewrite veriplagio_loop.
  intros H. inversion H; subst. clear H. simpl app.
  induction (splitlines deepseek_result) as [|linha linhas [IH1 IH2]]; simpl.
  - split; [constructor|lia].
  - destruct (veriplagio_line_spans linha) as [H1 H2]. split.
    + apply Forall_app. now split.
    + rewrite length_app. destruct (is_finding linha); simpl; lia.
Qed.

Lemma parse_report_spans_trimmed_witness :
  Forall (fun sp => strip (trecho sp) = trecho sp /\
                    exists f, fonte sp = JStr f /\ strip f = f)
         [hello_span (JStr (lit "http://x.test"))] /\
  length [hello_span (JStr (lit "http://x.test"))]
    <= length (filter is_finding (splitlines hello_line)).
Proof.
  apply (parse_report_spans_trimmed hello_line (hello_line ++ NL)).
  vm_compute. reflexivity.
Defined.

Lemma highlight_empty_raises (T : str) (spans : list PlagiarizedSpan) :
  existsb empty_excerpt spans = true ->
  Veriplagio.highlight_plagiarized_in_docx T spans = Raise ValueError.
Proof.
  intros H. pose proof (highlight_outcome T spans) as HO.
  rewrite H in HO. exact HO.
Qed.

Lemma startswith_prefix (p r : str) : startswith (p ++ r) p = true.
Proof.
  induction p as [|c p IH]; simpl; [now destruct r|].
  now rewrite N.eqb_refl, IH.
Qed.

Lemma skipn_prefix (p r : str) : skipn (length p) (p ++ r) = r.
Proof. induction p; simpl; auto. Qed.

(** A string that starts with the separator is cut at its start. *)
Lemma cut_prefix (p r : str) : cut (p ++ r) p = Some ([], r).
Proof.
  destruct (p ++ r) as [|c s] eqn:E.
  - rewrite cut_nil, <- E, startswith_prefix, skipn_prefix. reflexivity.
  - rewrite cut_cons, <- E, startswith_prefix, skipn_prefix. reflexivity.
Qed.

Lemma empty_excerpt_parse (f : str) :
  Veriplagio.parse_finding (lit "Trecho: - Fonte:" ++ f) = Ok ([], strip f).
Proof.
  rewrite veriplagio_parse_finding.
  assert (cut (lit "Trecho: - Fonte:" ++ f) (lit "Trecho:")
          = Some ([], lit " - Fonte:" ++ f)) as -> by (vm_compute; reflexivity).
  assert (strip (lit " - Fonte:" ++ f) = lit "- Fonte:" ++ rstrip f) as ->.
  { unfold strip.
    assert (lstrip (lit " - Fonte:" ++ f) = lit "- Fonte" ++ 58%N :: f) as ->
        by (vm_compute; reflexivity).
    rewrite rstrip_app_nonspace by reflexivity.
    generalize (rstrip f). intros r. vm_compute. reflexivity. }
  rewrite cut_prefix.
  now rewrite strip_rstrip.
Qed.

Lemma empty_excerpt_finding (f : str) : is_finding (lit "Trecho: - Fonte:" ++ f) = true.
Proof.
  unfold is_finding, strip.
  assert (lstrip (lit "Trecho: - Fonte:" ++ f) = lit "Trecho: - Fonte" ++ 58%N :: f) as ->
      by (vm_compute; reflexivity).
  rewrite rstrip_app_nonspace by reflexivity.
  generalize (rstrip f). intros r. vm_compute. reflexivity.
Qed.

(** X10.  A finding line with nothing between the marker and the source
    delimiter, "Trecho: - Fonte:" followed by any source, is parsed into
    a span whose excerpt is the empty string; on a span list that holds
    such a span the Highlighted Document Builder raises [ValueError],
    whatever the original text and the other spans. *)
Theorem empty_excerpt_breaks_builder
    (f out : str) (spans more : list PlagiarizedSpan) (original_text : str) :
  Veriplagio.step (out, spans) (lit "Trecho: - Fonte:" ++ f)
    = Ok (out ++ finding_line [] (strip f),
          spans ++ [{| trecho := []; fonte := JStr (strip f) |}]) /\
  Veriplagio.highlight_plagiarized_in_docx original_text
    (spans ++ {| trecho := []; fonte := JStr (strip f) |} :: more)
    = Raise ValueError.
Proof.
  split.
  - rewrite veriplagio_step_line. unfold veriplagio_line.
    now rewrite empty_excerpt_finding, empty_excerpt_parse.
  - apply highlight_empty_raises. rewrite existsb_app. simpl.
    now rewrite orb_true_r.
Qed.

End ParserMore.

(* ================================================================== *)
(** * More on the Source Resolver and the External Analysis Client *)
(* ================================================================== *)

Section NetworkMore.

Variable env : environment.
Variable repr : value -> str.

Ltac run_get :=
  unfold Veriplagio.get_source_from_serpapi, App.get_source_from_serpapi,
    search_request, try_catch, Net.bind, send, lift, ret.

Ltac close_case := eexists; split; [reflexivity|first [exact I|assumption]].

Lemma veriplagio_get_source_outcome (query : str) (log : list request) :
  exists r,
    Veriplagio.get_source_from_serpapi env query log = (r, log ++ [search_request query]) /\
    match r with
    | Ok _ => True
    | Raise e => is_RequestException e = false
    end.
Proof.
  run_get.
  destruct (env log _) as [r|e]; simpl;
    [|destruct (is_RequestException e) eqn:?; simpl; close_case].
  destruct (raise_for_status r) as [[]|e]; simpl;
    [|destruct (is_RequestException e) eqn:?; simpl; close_case].
  destruct (json r) as [data|e]; simpl;
    [|destruct (is_RequestException e) eqn:?; simpl; close_case].
  destruct (py_in _ data) as [has|e]; simpl;
    [|destruct (is_RequestException e) eqn:?; simpl; close_case].
  destruct has; simpl; [|close_case].
  destruct (getitem data _) as [organic|e]; simpl;
    [|destruct (is_RequestException e) eqn:?; simpl; close_case].
  destruct (py_len organic) as [n|e]; simpl;
    [|destruct (is_RequestException e) eqn:?; simpl; close_case].
  destruct (0 <? n)%N; simpl; [|close_case].
  destruct (getitem0 organic) as [first|e]; simpl;
    [|destruct (is_RequestException e) eqn:?; simpl; close_case].
  destruct (get first _ _) as [link|e]; simpl;
    [|destruct (is_RequestException e) eqn:?; simpl; close_case].
  close_case.
Qed.

(** X11.  Each call of the Source Resolver, in src/veriplagio/app.py and
    in src/app.py, sends exactly one search request, for the query it was
    given with [num = 1], whatever the answer is and whether the call
    returns or raises. *)
Theorem get_source_sends_one_request (query : str) (log : list request) :
  snd (Veriplagio.get_source_from_serpapi env query log) = log ++ [search_request query] /\
  snd (App.get_source_from_serpapi env query log) = log ++ [search_request query].
Proof.
  split.
  - destruct (veriplagio_get_source_outcome query log) as (r & -> & _). reflexivity.
  - destruct (app_get_source_total env query log) as (v & ->). reflexivity.
Qed.

(** X12.  The Source Resolver of src/app.py never raises: on every answer
    of the network, an exception or a response of any status and body,
    it returns a value. *)
Theorem app_get_source_never_raises (query : str) (log : list request) :
  exists v, fst (App.get_source_from_serpapi env query log) = Ok v.
Proof.
  destruct (app_get_source_total env query log) as (v & ->). now exists v.
Qed.

(** X13.  When the first organic result is an object without a "link"
    key, the Source Resolver returns the sentinel, in both variants. *)
Theorem get_source_missing_link (query : str) (log : list request) (r : response)
    (items first : list (str * value)) (rest : list value) :
  env log (search_request query) = Ok r ->
  raise_for_status r = Ok tt ->
  json r = Ok (JObj items) ->
  lookup (lit "organic_results") items = Some (JArr (JObj first :: rest)) ->
  lookup (lit "link") first = None ->
  Veriplagio.get_source_from_serpapi env query log
    = (Ok (JStr Veriplagio.sentinel), log ++ [search_request query]) /\
  App.get_source_from_serpapi env query log
    = (Ok (JStr App.sentinel), log ++ [search_request query]).
Proof.
  intros H Hr Hj Hl Hk. unfold search_request in H.
  split; run_get; rewrite H; simpl; rewrite Hr; simpl; rewrite Hj; simpl;
    rewrite !Hl; simpl; rewrite Hk; reflexivity.
Qed.

(** X14.  The Source Resolver of src/veriplagio/app.py never lets a
    [requests.RequestException] escape: an exception that it raises is of
    another class. *)
Theorem veriplagio_get_source_escapes (query : str) (log : list request) (e : exn) :
  fst (Veriplagio.get_source_from_serpapi env query log) = Raise e ->
  is_RequestException e = false.
Proof.
  destruct (veriplagio_get_source_outcome query log) as (r & -> & Hr).
  simpl. intros ->. exact Hr.
Qed.

End NetworkMore.

Lemma get_source_missing_link_witness :
  let env : environment :=
    fun _ _ => Ok {| status_code := 200;
                     json := Ok (JObj [(lit "organic_results",
                                        JArr [JObj [(lit "title", JStr (lit "t"))]])]) |} in
  Veriplagio.get_source_from_serpapi env (lit "q") []
    = (Ok (JStr Veriplagio.sentinel), [] ++ [search_request (lit "q")]) /\
  App.get_source_from_serpapi env (lit "q") []
    = (Ok (JStr App.sentinel), [] ++ [search_request (lit "q")]).
Proof.
  cbv zeta.
  refine (get_source_missing_link _ (lit "q") []
            {| status_code := 200;
               json := Ok (JObj [(lit "organic_results",
                                  JArr [JObj [(lit "title", JStr (lit "t"))]])]) |}
            [(lit "organic_results", JArr [JObj [(lit "title", JStr (lit "t"))]])]
            [(lit "title", JStr (lit "t"))] [] _ _ _ _ _);
    vm_compute; reflexivity.
Defined.

Lemma veriplagio_get_source_escapes_witness :
  is_RequestException AttributeError = false.
Proof.
  apply (veriplagio_get_source_escapes malformed_results (lit "q") []).
  vm_compute. reflexivity.
Defined.

Section ClientMore.

Variable env : environment.
Variable repr : value -> str.

Ltac run_post :=
  unfold Veriplagio.analyze_plagiarism_with_source, App.analyze_plagiarism_with_source,
    analysis_request, Net.bind, send, lift, ret.

(** X15.  The External Analysis Client accepts the status code 200 and
    no other: a response with another success code (201, 204, ...) is
    reported as an error, with its status code and an empty span list,
    like a failure. *)
Theorem analyze_accepts_only_200 (text : str) (log : list request) (r : response) :
  env log (analysis_request text) = Ok r ->
  is_success (status_code r) = true ->
  status_code r <> 200%Z ->
  Veriplagio.analyze_plagiarism_with_source env text log
    = (Ok (lit "Erro na API DeepSeek (status: " ++ PyStr.of_Z (status_code r) ++ lit ")", []),
       log ++ [analysis_request text]) /\
  App.analyze_plagiarism_with_source env repr text log
    = (Ok (lit "Erro na API DeepSeek (status: " ++ PyStr.of_Z (status_code r) ++ lit ")", []),
       log ++ [analysis_request text]).
Proof.
  intros H _ Hs. exact (analyze_not_200 env repr text log r H Hs).
Qed.

Lemma analyze_200 (text : str) (log : list request) (r : response) :
  env log (analysis_request text) = Ok r ->
  status_code r = 200%Z ->
  Veriplagio.analyze_plagiarism_with_source env text log
    = (match json r with
       | Ok body =>
           match completion body with
           | Ok deepseek_result =>
               match py_splitlines deepseek_result with
               | Ok linhas => for_each Veriplagio.step linhas ([], [])
               | Raise e => Raise e
               end
           | Raise e => Raise e
           end
       | Raise e => Raise e
       end, log ++ [analysis_request text]).
Proof.
  intros H Hs. unfold analysis_request in H. run_post. rewrite H. cbv beta iota.
  rewrite Hs. cbn [Z.eqb Pos.eqb negb]. unfold completion.
  destruct (json r) as [body|e]; [|reflexivity]. cbn [Py.bind].
  destruct (getitem body _) as [choices|e]; [|reflexivity]. cbn [Py.bind].
  destruct (getitem0 choices) as [choice|e]; [|reflexivity]. cbn [Py.bind].
  destruct (getitem choice _) as [message|e]; [|reflexivity]. cbn [Py.bind].
  destruct (getitem message _) as [content|e]; [|reflexivity].
  destruct (py_splitlines content) as [linhas|e]; reflexivity.
Qed.

Lemma app_analyze_200 (text : str) (log : list request) (r : response) :
  env log (analysis_request text) = Ok r ->
  status_code r = 200%Z ->
  App.analyze_plagiarism_with_source env repr text log
    = match json r with
      | Ok body =>
          match completion body with
          | Ok deepseek_result =>
              match py_splitlines deepseek_result with
              | Ok linhas =>
                  App.for_each_io (App.step env repr) linhas ([], [])
                                  (log ++ [analysis_request text])
              | Raise e => (Raise e, log ++ [analysis_request text])
              end
          | Raise e => (Raise e, log ++ [analysis_request text])
          end
      | Raise e => (Raise e, log ++ [analysis_request text])
      end.
Proof.
  intros H Hs. unfold analysis_request in H. run_post. rewrite H. cbv beta iota.
  rewrite Hs. cbn [Z.eqb Pos.eqb negb]. unfold completion.
  destruct (json r) as [body|e]; [|reflexivity]. cbn [Py.bind].
  destruct (getitem body _) as [choices|e]; [|reflexivity]. cbn [Py.bind].
  destruct (getitem0 choices) as [choice|e]; [|reflexivity]. cbn [Py.bind].
  destruct (getitem choice _) as [message|e]; [|reflexivity]. cbn [Py.bind].
  destruct (getitem message _) as [content|e]; [|reflexivity].
  destruct (py_splitlines content) as [linhas|e]; reflexivity.
Qed.

(** X16.  When the chat-completion request returns status 200 and a body
    whose [choices[0].message.content] is a string, the client of
    src/veriplagio/app.py returns what the Report Parser makes of that
    string and has sent the one request only (no search request); the
    client of src/app.py runs its Report Parser on that string, after the
    one request. *)
Theorem analyze_parses_completion
    (text : str) (log : list request) (r : response) (body : value) (content : str) :
  env log (analysis_request text) = Ok r ->
  status_code r = 200%Z ->
  json r = Ok body ->
  completion body = Ok (JStr content) ->
  Veriplagio.analyze_plagiarism_with_source env text log
    = (Veriplagio.parse_report content, log ++ [analysis_request text]) /\
  App.analyze_plagiarism_with_source env repr text log
    = App.parse_report env repr content (log ++ [analysis_request text]).
Proof.
  intros H Hs Hj Hc. split.
  - rewrite (analyze_200 text log r H Hs), Hj, Hc. reflexivity.
  - rewrite (app_analyze_200 text log r H Hs), Hj, Hc. reflexivity.
Qed.

(** X17.  A status 200 does not guard the body: when the decoded body is
    an object without the key "choices", the client raises [KeyError]
    after the one request, in both variants. *)
Theorem analyze_missing_choices_raises
    (text : str) (log : list request) (r : response) (items : list (str * value)) :
  env log (analysis_request text) = Ok r ->
  status_code r = 200%Z ->
  json r = Ok (JObj items) ->
  lookup (lit "choices") items = None ->
  Veriplagio.analyze_plagiarism_with_source env text log
    = (Raise KeyError, log ++ [analysis_request text]) /\
  App.analyze_plagiarism_with_source env repr text log
    = (Raise KeyError, log ++ [analysis_request text]).
Proof.
  intros H Hs Hj Hl.
  rewrite (analyze_200 text log r H Hs), (app_analyze_200 text log r H Hs), Hj.
  unfold completion. simpl. rewrite Hl. now split.
Qed.

(** X18.  The chat-completion request itself is not guarded: when it
    raises (no connection, a timeout) the client raises the same
    exception, in both variants. *)
Theorem analyze_request_failure_propagates
    (text : str) (log : list request) (e : exn) :
  env log (analysis_request text) = Raise e ->
  Veriplagio.analyze_plagiarism_with_source env text log
    = (Raise e, log ++ [analysis_request text]) /\
  App.analyze_plagiarism_with_source env repr text log
    = (Raise e, log ++ [analysis_request text]).
Proof.
  intros H. unfold analysis_request in H. split; run_post; now rewrite H.
Qed.

End ClientMore.

Lemma analyze_accepts_only_200_witness :
  let r := {| status_code := 204; json := Raise ValueError |} in
  let env : environment := fun _ _ => Ok r in
  Veriplagio.analyze_plagiarism_with_source env (lit "um texto") []
    = (Ok (lit "Erro na API DeepSeek (status: " ++ PyStr.of_Z (status_code r) ++ lit ")", []),
       [] ++ [analysis_request (lit "um texto")]) /\
  App.analyze_plagiarism_with_source env (fun _ => []) (lit "um texto") []
    = (Ok (lit "Erro na API DeepSeek (status: " ++ PyStr.of_Z (status_code r) ++ lit ")", []),
       [] ++ [analysis_request (lit "um texto")]).
Proof.
  cbv zeta.
  refine (analyze_accepts_only_200 _ (fun _ => []) (lit "um texto") []
            {| status_code := 204; json := Raise ValueError |} eq_refl eq_refl _).
  discriminate.
Defined.


Lemma analyze_parses_completion_witness :
  let r := {| status_code := 200; json := Ok (completion_body (JStr hello_line)) |} in
  let env : environment := fun _ _ => Ok r in
  Veriplagio.analyze_plagiarism_with_source env (lit "um texto") []
    = (Veriplagio.parse_report hello_line, [] ++ [analysis_request (lit "um texto")]) /\
  App.analyze_plagiarism_with_source env (fun _ => []) (lit "um texto") []
    = App.parse_report env (fun _ => []) hello_line
        ([] ++ [analysis_request (lit "um texto")]).
Proof.
  cbv zeta.
  refine (analyze_parses_completion _ (fun _ => []) (lit "um texto") []
            {| status_code := 200; json := Ok (completion_body (JStr hello_line)) |}
            (completion_body (JStr hello_line)) hello_line eq_refl eq_refl eq_refl _).
  vm_compute. reflexivity.
Defined.

Lemma analyze_missing_choices_raises_witness :
  let r := {| status_code := 200; json := Ok (JObj []) |} in
  let env : environment := fun _ _ => Ok r in
  Veriplagio.analyze_plagiarism_with_source env (lit "um texto") []
    = (Raise KeyError, [] ++ [analysis_request (lit "um texto")]) /\
  App.analyze_plagiarism_with_source env (fun _ => []) (lit "um texto") []
    = (Raise KeyError, [] ++ [analysis_request (lit "um texto")]).
Proof.
  cbv zeta.
  exact (analyze_missing_choices_raises _ (fun _ => []) (lit "um texto") []
           {| status_code := 200; json := Ok (JObj []) |} [] eq_refl eq_refl eq_refl eq_refl).
Defined.

Lemma analyze_request_failure_propagates_witness :
  Veriplagio.analyze_plagiarism_with_source offline (lit "um texto") []
    = (Raise RequestException, [] ++ [analysis_request (lit "um texto")]) /\
  App.analyze_plagiarism_with_source offline (fun _ => []) (lit "um texto") []
    = (Raise RequestException, [] ++ [analysis_request (lit "um texto")]).
Proof.
  exact (analyze_request_failure_propagates offline (fun _ => []) (lit "um texto") []
           RequestException eq_refl).
Defined.

(* ================================================================== *)
(** * The Report Parser of src/app.py *)
(* ================================================================== *)

Section AppParserMore.

Variable env : environment.
Variable repr : value -> str.

Lemma app_parse_finding_no_marker (linha : str) (log : list request) :
  cut linha (lit "Trecho:") = None ->
  App.parse_finding env linha log = (Raise IndexError, log).
Proof.
  intros Hcut. unfold App.parse_finding, Net.bind, lift.
  now rewrite (split1_cut linha (lit "Trecho:") marker_not_empty), Hcut.
Qed.

Lemma app_step_outcome (out : str) (spans : list PlagiarizedSpan)
    (linha : str) (log : list request) :
  exists (chunk : str) (new : list PlagiarizedSpan),
    App.step env repr (out, spans) linha log
      = (Ok (@pair str (list PlagiarizedSpan) (out ++ chunk) (spans ++ new)),
         log ++ map (fun sp => search_request (trecho sp)) new).
Proof.
  destruct (is_finding linha) eqn:Hf.
  - destruct (cut linha (lit "Trecho:")) as [[b a]|] eqn:Hcut.
    + destruct (app_get_source_total env (excerpt_of (strip a)) log) as (fonte & Hsrc).
      exists (finding_line (excerpt_of (strip a)) (App.format repr fonte)),
             [{| trecho := excerpt_of (strip a); fonte := fonte |}].
      rewrite (app_step_finding env repr out spans linha b a log _ fonte Hf Hcut Hsrc).
      reflexivity.
    + exists (linha ++ NL), []. unfold App.step. unfold is_finding in Hf. rewrite Hf.
      unfold try_catch, Net.bind.
      rewrite (app_parse_finding_no_marker linha log Hcut). unfold ret. simpl.
      now rewrite !app_nil_r.
  - exists (linha ++ NL), []. unfold App.step. unfold is_finding in Hf. rewrite Hf.
    unfold ret. simpl. now rewrite !app_nil_r.
Qed.

Lemma app_loop_outcome (linhas : list str) :
  forall (out : str) (spans : list PlagiarizedSpan) (log : list request),
  exists (rebuilt : str) (new : list PlagiarizedSpan),
    App.for_each_io (App.step env repr) linhas (@pair str (list PlagiarizedSpan) out spans) log
      = (Ok (out ++ rebuilt, spans ++ new),
         log ++ map (fun sp => search_request (trecho sp)) new).
Proof.
  induction linhas as [|linha linhas IH]; intros out spans log.
  - exists [], []. simpl. unfold ret. now rewrite !app_nil_r.
  - destruct (app_step_outcome out spans linha log) as (chunk & new1 & H1).
    destruct (IH (out ++ chunk) (spans ++ new1)
                 (log ++ map (fun sp => search_request (trecho sp)) new1))
      as (rebuilt & new2 & H2).
    exists (chunk ++ rebuilt), (new1 ++ new2).
    cbn [App.for_each_io]. unfold Net.bind. rewrite H1, H2.
    now rewrite map_app, !app_assoc.
Qed.

(** X19.  The Report Parser of src/app.py never raises, on any completion
    text and any behaviour of the network, and it sends one search
    request for each span it extracts, in the order of the spans, with
    the span's excerpt as the query. *)
Theorem app_parse_report_never_raises (deepseek_result : str) (log : list request) :
  exists (resultado_bruto : str) (trechos_plagio : list PlagiarizedSpan),
    App.parse_report env repr deepseek_result log
      = (Ok (resultado_bruto, trechos_plagio),
         log ++ map (fun sp => search_request (trecho sp)) trechos_plagio).
Proof.
  unfold App.parse_report. cbv zeta.
  change (@pair (list char) (list PlagiarizedSpan) [] [])
    with (@pair str (list PlagiarizedSpan) [] []).
  exact (app_loop_outcome (splitlines deepseek_result) [] [] log).
Qed.

End AppParserMore.

(* ================================================================== *)
(** * The search of the text comparison, src/app.py *)
(* ================================================================== *)

Section SearchMore.

Variable env : environment.
Variable message : exn -> str.

Ltac run_search :=
  unfold AppSearch.search_with_serpapi, comparison_request, Net.bind, send, lift, ret.

Lemma append_result_object (results : list AppSearch.result_record)
    (fields : list (str * value)) :
  AppSearch.append_result results (JObj fields) = Ok (results ++ [record_of fields]).
Proof. reflexivity. Qed.

Lemma append_result_other (results : list AppSearch.result_record) (item : value) :
  is_object item = false ->
  AppSearch.append_result results item = Raise AttributeError.
Proof. now destruct item. Qed.

Lemma for_each_objects (objs : list (list (str * value)))
    (results : list AppSearch.result_record) :
  for_each AppSearch.append_result (map JObj objs) results
  = Ok (results ++ map record_of objs).
Proof.
  revert results. induction objs as [|o objs IH]; intros results; simpl.
  - now rewrite app_nil_r.
  - rewrite IH, <- app_assoc. reflexivity.
Qed.

Lemma for_each_bad_item (items : list value) (results : list AppSearch.result_record) :
  forallb is_object items = false ->
  for_each AppSearch.append_result items results = Raise AttributeError.
Proof.
  revert results. induction items as [|x items IH]; intros results H; [discriminate|].
  cbn [forallb] in H. cbn [for_each].
  destruct (is_object x) eqn:E.
  - destruct x; try discriminate. rewrite append_result_object. now apply IH.
  - now rewrite append_result_other.
Qed.

(** X20.  The search of the text comparison never raises: whatever the
    network does, it sends one request, which asks for 3 results, and
    returns a list of records. *)
Theorem search_never_raises (query : str) (log : list request) :
  exists results : list AppSearch.result_record,
    AppSearch.search_with_serpapi env message query log
    = (Ok results, log ++ [comparison_request query]).
Proof.
  run_search.
  destruct (env log _) as [r|e]; [|eauto].
  destruct (raise_for_status r) as [[]|e]; [|eauto].
  destruct (json r) as [data|e]; [|eauto].
  destruct (get data _ _) as [organic|e]; [|eauto].
  destruct (AppSearch.py_iter organic) as [items|e]; [|eauto].
  destruct (for_each _ items []) as [results|e]; eauto.
Qed.

(** X21.  When the search answers with a status outside 400..599 and a
    JSON object whose [organic_results] (an empty list when the key is
    missing) is a list of objects, the search returns one record per
    object, in order: the object's title, link and snippet, with
    "Sem título", "#" and "" where the object has none. *)
Theorem search_maps_results (query : str) (log : list request) (r : response)
    (data : value) (objs : list (list (str * value))) :
  env log (comparison_request query) = Ok r ->
  raise_for_status r = Ok tt ->
  json r = Ok data ->
  get data (lit "organic_results") (JArr []) = Ok (JArr (map JObj objs)) ->
  AppSearch.search_with_serpapi env message query log
  = (Ok (map record_of objs), log ++ [comparison_request query]).
Proof.
  intros H Hs Hj Hg. unfold comparison_request in H. run_search.
  rewrite H, Hs, Hj, Hg. cbn [AppSearch.py_iter].
  now rewrite for_each_objects.
Qed.

(** X22.  One item of [organic_results] that is not an object discards
    every result: the search returns the single error record, with the
    message of the [AttributeError]. *)
Theorem search_bad_item_discards_all (query : str) (log : list request) (r : response)
    (data : value) (items : list value) :
  env log (comparison_request query) = Ok r ->
  raise_for_status r = Ok tt ->
  json r = Ok data ->
  get data (lit "organic_results") (JArr []) = Ok (JArr items) ->
  forallb is_object items = false ->
  AppSearch.search_with_serpapi env message query log
  = (Ok [error_record (message AttributeError)], log ++ [comparison_request query]).
Proof.
  intros H Hs Hj Hg Hb. unfold comparison_request in H. run_search.
  rewrite H, Hs, Hj, Hg. cbn [AppSearch.py_iter].
  now rewrite for_each_bad_item.
Qed.

End SearchMore.

Lemma search_maps_results_witness :
  let body := JObj [(lit "organic_results",
                     JArr (map JObj [[(lit "title", JStr (lit "A"));
                                      (lit "link", JStr (lit "http://a.test"))];
                                     [(lit "snippet", JInt 5)]]))] in
  let r := {| status_code := 200; json := Ok body |} in
  let env : environment := fun _ _ => Ok r in
  AppSearch.search_with_serpapi env (fun _ => []) (lit "q") []
  = (Ok [ {| AppSearch.title := JStr (lit "A"); AppSearch.link := JStr (lit "http://a.test");
             AppSearch.snippet := JStr (lit "") |};
          {| AppSearch.title := JStr (lit "Sem título"); AppSearch.link := JStr (lit "#");
             AppSearch.snippet := JInt 5 |} ],
     [comparison_request (lit "q")]).
Proof.
  cbv zeta.
  refine (search_maps_results (fun _ _ => Ok {| status_code := 200; json := Ok _ |})
            (fun _ => []) (lit "q") [] {| status_code := 200; json := Ok _ |} _
            [[(lit "title", JStr (lit "A")); (lit "link", JStr (lit "http://a.test"))];
             [(lit "snippet", JInt 5)]]
            eq_refl _ eq_refl _); vm_compute; reflexivity.
Defined.

Lemma search_bad_item_discards_all_witness :
  let body := JObj [(lit "organic_results",
                     JArr [JObj [(lit "title", JStr (lit "A"))]; JInt 5])] in
  let r := {| status_code := 200; json := Ok body |} in
  let env : environment := fun _ _ => Ok r in
  AppSearch.search_with_serpapi env (fun _ => lit "no attribute") (lit "q") []
  = (Ok [error_record (lit "no attribute")], [] ++ [comparison_request (lit "q")]).
Proof.
  cbv zeta.
  refine (search_bad_item_discards_all (fun _ _ => Ok {| status_code := 200; json := Ok _ |})
            (fun _ => lit "no attribute") (lit "q") [] {| status_code := 200; json := Ok _ |} _
            [JObj [(lit "title", JStr (lit "A"))]; JInt 5]
            eq_refl _ eq_refl _ _); vm_compute; reflexivity.
Defined.

(* ================================================================== *)
(** * The upload and the routes, src/veriplagio/app.py *)
(* ================================================================== *)

Section UploadMore.

Variable unicode_lower : str -> str.

Lemma startswith_nil (s : str) : startswith s [] = true.
Proof. now destruct s. Qed.

Lemma cut_char_app (c : char) (a b : str) :
  forallb (fun d => negb (d =? c)%N) a = true ->
  cut (a ++ c :: b) [c] = Some (a, b).
Proof.
  induction a as [|d a IH]; intros H.
  - simpl app. rewrite cut_cons. cbn [startswith length skipn].
    now rewrite N.eqb_refl, startswith_nil.
  - cbn [forallb] in H. apply andb_true_iff in H as [Hd Ha].
    simpl app. rewrite cut_cons. cbn [startswith].
    rewrite N.eqb_sym. apply negb_true_iff in Hd. rewrite Hd. cbn [andb].
    now rewrite (IH Ha).
Qed.

Lemma cut_char_found (c : char) (a b : str) :
  exists x y, cut (a ++ c :: b) [c] = Some (x, y).
Proof.
  induction a as [|d a (x & y & IH)].
  - simpl app. rewrite cut_cons. cbn [startswith length skipn].
    rewrite N.eqb_refl, startswith_nil. simpl. eauto.
  - simpl app. rewrite cut_cons. destruct (startswith _ _); [eauto|].
    rewrite IH. eauto.
Qed.

Lemma forallb_rev {A} (f : A -> bool) (l : list A) :
  forallb f (rev l) = forallb f l.
Proof.
  induction l as [|x l IH]; [reflexivity|].
  simpl. rewrite forallb_app, IH. simpl. rewrite andb_true_r. apply andb_comm.
Qed.

Lemma rsplit1_char (c : char) (a b : str) :
  forallb (fun d => negb (d =? c)%N) b = true ->
  VeriplagioWeb.rsplit1 (a ++ c :: b) [c] = Ok [a; b].
Proof.
  intros H. unfold VeriplagioWeb.rsplit1.
  rewrite rev_app_distr. cbn [rev app]. rewrite <- app_assoc. cbn [app].
  rewrite cut_char_app by (now rewrite forallb_rev).
  now rewrite !rev_involutive.
Qed.

Lemma rsplit1_found (c : char) (a b : str) :
  exists x y, VeriplagioWeb.rsplit1 (a ++ c :: b) [c] = Ok [x; y].
Proof.
  unfold VeriplagioWeb.rsplit1.
  rewrite rev_app_distr. cbn [rev app]. rewrite <- app_assoc. cbn [app].
  destruct (cut_char_found c (rev b) (rev a)) as (x & y & ->). eauto.
Qed.

Lemma contains_char (c : char) (a b : str) : contains (a ++ c :: b) [c] = true.
Proof.
  unfold contains. destruct (cut_char_found c a b) as (x & y & ->). reflexivity.
Qed.

Lemma rsplit1_last_dot (stem ext : str) :
  dotless ext = true ->
  VeriplagioWeb.rsplit1 (stem ++ lit "." ++ ext) (lit ".") = Ok [stem; ext].
Proof. intros H. exact (rsplit1_char 46%N stem ext H). Qed.

Lemma contains_dot (stem ext : str) :
  contains (stem ++ lit "." ++ ext) (lit ".") = true.
Proof. exact (contains_char 46%N stem ext). Qed.

(** X23.  [allowed_file] never raises: its test for a dot guards the
    index into the split of the name; a name without a dot is refused. *)
Theorem allowed_file_never_raises (filename : str) :
  exists allowed : bool,
    VeriplagioWeb.allowed_file unicode_lower filename = Ok allowed /\
    (contains filename (lit ".") = false -> allowed = false).
Proof.
  unfold VeriplagioWeb.allowed_file.
  destruct (contains filename (lit ".")) eqn:E; [|now exists false].
  unfold contains in E. destruct (cut filename (lit ".")) as [[a b]|] eqn:Ec; [|discriminate].
  apply cut_Some in Ec. subst filename.
  destruct (rsplit1_found 46%N a b) as (x & y & Er).
  assert (VeriplagioWeb.rsplit1 (a ++ lit "." ++ b) (lit ".") = Ok [x; y]) as -> by exact Er.
  simpl. eexists. split; [reflexivity|discriminate].
Qed.

(** X24.  The extension that [allowed_file] judges is the text after the
    last dot of the name: for an ASCII extension without a dot, the name
    is accepted exactly when the extension is, in lower case, "pdf" or
    "docx", whatever comes before that dot. *)
Theorem allowed_file_last_extension (stem ext : str) :
  dotless ext = true ->
  forallb VeriplagioWeb.is_ascii ext = true ->
  VeriplagioWeb.allowed_file unicode_lower (stem ++ lit "." ++ ext)
  = Ok (extension_allowed ext).
Proof.
  intros Hd Ha. unfold VeriplagioWeb.allowed_file.
  rewrite contains_dot, (rsplit1_last_dot stem ext Hd).
  cbn [Py.bind item1]. unfold VeriplagioWeb.lower. rewrite Ha. reflexivity.
Qed.

End UploadMore.

Lemma allowed_file_last_extension_witness :
  VeriplagioWeb.allowed_file (fun s => s) (lit "tese.pdf" ++ lit "." ++ lit "EXE") = Ok false /\
  VeriplagioWeb.allowed_file (fun s => s) (lit "tese.exe" ++ lit "." ++ lit "PDF") = Ok true.
Proof.
  split.
  - exact (allowed_file_last_extension (fun s => s) (lit "tese.pdf") (lit "EXE") eq_refl eq_refl).
  - exact (allowed_file_last_extension (fun s => s) (lit "tese.exe") (lit "PDF") eq_refl eq_refl).
Defined.

Section RoutesMore.

Variable env : environment.
Variable unicode_lower : str -> str.
Variable secure_filename : str -> str.
Variable docx_bytes : document -> list N.

Ltac run_route :=
  unfold VeriplagioWeb.verificacao_plagio, Net.bind, lift, ret.



(** The route once the form text is given and not empty. *)
Lemma route_form_text (rq : VeriplagioWeb.web_request) (buffer : option (list N))
    (log : list request) (t file_text : str) :
  VeriplagioWeb.method rq = VeriplagioWeb.HTTP_POST ->
  VeriplagioWeb.form_text rq = Some t ->
  t <> [] ->
  VeriplagioWeb.read_upload unicode_lower secure_filename rq = Ok file_text ->
  VeriplagioWeb.verificacao_plagio env unicode_lower secure_filename docx_bytes rq buffer log
  = match strip t with
    | [] => (Ok (idle_page t, buffer), log)
    | _ =>
        match Veriplagio.analyze_plagiarism_with_source env t log with
        | (Ok (resultado_bruto, trechos_plagio), log') =>
            match Veriplagio.calculate_plagiarism_percentage t trechos_plagio with
            | Ok percentage =>
                match Veriplagio.highlight_plagiarized_in_docx t trechos_plagio with
                | Ok doc =>
                    (Ok ({| VeriplagioWeb.text := t;
                            VeriplagioWeb.plagio_result := resultado_bruto;
                            VeriplagioWeb.percentage := percentage;
                            VeriplagioWeb.download_ready := true |},
                         Some (docx_bytes doc)), log')
                | Raise e => (Raise e, log')
                end
            | Raise e => (Raise e, log')
            end
        | (Raise e, log') => (Raise e, log')
        end
    end.
Proof.
  intros Hm Hf Ht Hr. run_route. rewrite Hm, Hr, Hf.
  destruct t as [|c t]; [congruence|].
  destruct (strip (c :: t)); [reflexivity|].
  destruct (Veriplagio.analyze_plagiarism_with_source env (c :: t) log)
    as [[[out spans]|e] log']; [|reflexivity].
  destruct (Veriplagio.calculate_plagiarism_percentage (c :: t) spans); [|reflexivity].
  now destruct (Veriplagio.highlight_plagiarized_in_docx (c :: t) spans).
Qed.

(** X25.  A form text of white space only masks the uploaded file: the
    text of the file is extracted and then dropped, nothing is analysed,
    no request is sent and the stored document is left as it was. *)
Theorem blank_form_text_masks_upload (rq : VeriplagioWeb.web_request)
    (buffer : option (list N)) (log : list request) (t file_text : str) :
  VeriplagioWeb.method rq = VeriplagioWeb.HTTP_POST ->
  VeriplagioWeb.form_text rq = Some t ->
  t <> [] ->
  strip t = [] ->
  VeriplagioWeb.read_upload unicode_lower secure_filename rq = Ok file_text ->
  VeriplagioWeb.verificacao_plagio env unicode_lower secure_filename docx_bytes rq buffer log
  = (Ok (idle_page t, buffer), log).
Proof.
  intros Hm Hf Ht Hs Hr.
  rewrite (route_form_text rq buffer log t file_text Hm Hf Ht Hr). now rewrite Hs.
Qed.

(** X26.  An upload whose name is empty or is refused by [allowed_file]
    is ignored: the route does what it does for the same request without
    a file; the file is neither saved nor read. *)
Theorem refused_upload_ignored (rq : VeriplagioWeb.web_request) (f : VeriplagioWeb.upload)
    (buffer : option (list N)) (log : list request) :
  VeriplagioWeb.file rq = Some f ->
  VeriplagioWeb.filename f = []
  \/ VeriplagioWeb.allowed_file unicode_lower (VeriplagioWeb.filename f) = Ok false ->
  VeriplagioWeb.verificacao_plagio env unicode_lower secure_filename docx_bytes rq buffer log
  = VeriplagioWeb.verificacao_plagio env unicode_lower secure_filename docx_bytes
      (no_upload rq) buffer log.
Proof.
  intros Hf H.
  assert (VeriplagioWeb.read_upload unicode_lower secure_filename rq
          = VeriplagioWeb.read_upload unicode_lower secure_filename (no_upload rq)) as E.
  { unfold VeriplagioWeb.read_upload, no_upload. cbn [VeriplagioWeb.file]. rewrite Hf.
    destruct H as [H|H]; rewrite H; [reflexivity|].
    now destruct (negb _). }
  unfold VeriplagioWeb.verificacao_plagio. rewrite E. reflexivity.
Qed.


(** X28.  When the route marks the page ready for download it has stored
    a new document, one that the builder made of the page's text, and
    that document is what [download_doc] then sends, unless its bytes are
    empty.  When it does not, the stored document and the request log
    are unchanged. *)
Theorem download_ready_stores_document (rq : VeriplagioWeb.web_request)
    (buffer buffer' : option (list N)) (log log' : list request)
    (pg : VeriplagioWeb.page) :
  VeriplagioWeb.verificacao_plagio env unicode_lower secure_filename docx_bytes rq buffer log
  = (Ok (pg, buffer'), log') ->
  if VeriplagioWeb.download_ready pg then
    exists (trechos_plagio : list PlagiarizedSpan) (doc : document),
      Veriplagio.highlight_plagiarized_in_docx (VeriplagioWeb.text pg) trechos_plagio = Ok doc /\
      buffer' = Some (docx_bytes doc) /\
      (docx_bytes doc = [] \/ VeriplagioWeb.download_doc buffer' = attachment (docx_bytes doc))
  else buffer' = buffer /\ log' = log.
Proof.
  run_route. destruct (VeriplagioWeb.method rq).
  { intros H. inversion H; subst. simpl. auto. }
  destruct (VeriplagioWeb.read_upload unicode_lower secure_filename rq) as [file_text|e];
    [|discriminate].
  set (text := match match VeriplagioWeb.form_text rq with Some t => t | None => lit "" end with
               | [] => file_text
               | _ => match VeriplagioWeb.form_text rq with Some t => t | None => lit "" end
               end).
  destruct (strip text).
  { intros H. inversion H; subst. simpl. auto. }
  destruct (Veriplagio.analyze_plagiarism_with_source env text log)
    as [[[out spans]|e] log1]; [|discriminate].
  destruct (Veriplagio.calculate_plagiarism_percentage text spans) as [p|e]; [|discriminate].
  destruct (Veriplagio.highlight_plagiarized_in_docx text spans) as [doc|e] eqn:Eh;
    [|discriminate].
  intros H. inversion H; subst. cbn [VeriplagioWeb.download_ready VeriplagioWeb.text].
  exists spans, doc. repeat split; [exact Eh|].
  unfold VeriplagioWeb.download_doc, attachment.
  destruct (docx_bytes doc); [now left|now right].
Qed.


End RoutesMore.

Lemma blank_form_text_masks_upload_witness :
  VeriplagioWeb.verificacao_plagio offline (fun s => s) (fun s => s) (fun _ => [])
    (posted (Some (lit " ")) (Some (readable (lit "tese.pdf") (lit "texto copiado"))))
    None []
  = (Ok (idle_page (lit " "), None), []).
Proof.
  refine (blank_form_text_masks_upload offline (fun s => s) (fun s => s) (fun _ => [])
            (posted (Some (lit " ")) (Some (readable (lit "tese.pdf") (lit "texto copiado"))))
            None [] (lit " ") (lit "texto copiado") _ _ _ _ _);
    try (vm_compute; reflexivity).
  intros H; vm_compute in H; discriminate H.
Defined.

Lemma refused_upload_ignored_witness :
  VeriplagioWeb.verificacao_plagio offline (fun s => s) (fun s => s) (fun _ => [])
    (posted (Some (lit " ")) (Some (readable (lit "tese.exe") (lit "texto copiado"))))
    None []
  = VeriplagioWeb.verificacao_plagio offline (fun s => s) (fun s => s) (fun _ => [])
      (no_upload (posted (Some (lit " ")) (Some (readable (lit "tese.exe") (lit "texto copiado")))))
      None [].
Proof.
  refine (refused_upload_ignored offline (fun s => s) (fun s => s) (fun _ => [])
            (posted (Some (lit " ")) (Some (readable (lit "tese.exe") (lit "texto copiado"))))
            (readable (lit "tese.exe") (lit "texto copiado")) None [] eq_refl (or_intror _)).
  vm_compute; reflexivity.
Defined.


Lemma download_ready_stores_document_witness :
  exists (trechos_plagio : list PlagiarizedSpan) (doc : document),
    Veriplagio.highlight_plagiarized_in_docx (lit "um texto") trechos_plagio = Ok doc /\
    Some [80; 75]%N = Some ((fun _ : document => [80; 75]%N) doc) /\
    ((fun _ : document => [80; 75]%N) doc = []
     \/ VeriplagioWeb.download_doc (Some [80; 75]%N)
        = attachment ((fun _ : document => [80; 75]%N) doc)).
Proof.
  refine (download_ready_stores_document server_error (fun s => s) (fun s => s)
            (fun _ => [80; 75]%N) (posted (Some (lit "um texto")) None) None (Some [80; 75]%N)
            [] [analysis_request (lit "um texto")]
            {| VeriplagioWeb.text := lit "um texto";
               VeriplagioWeb.plagio_result := lit "Erro na API DeepSeek (status: 500)";
               VeriplagioWeb.percentage := B64.zero;
               VeriplagioWeb.download_ready := true |} _).
  vm_compute; reflexivity.
Defined.


(* ================================================================== *)
(** * The analysis of src/veriplagio/veriplagio/app.py *)
(* ================================================================== *)

Section InnerMore.

Variable env : environment.
Variable repr : value -> str.

Lemma inner_step_unguarded (resultado_completo linha : str) (log : list request) :
  unguarded linha = true ->
  Inner.step env repr resultado_completo linha log = (Raise IndexError, log).
Proof.
  unfold unguarded, is_finding. intros H. apply andb_true_iff in H as [Hf Hc].
  apply negb_true_iff in Hc. rewrite contains_cut in Hc.
  unfold Inner.step. rewrite Hf. unfold Net.bind, lift.
  rewrite split1_cut by apply marker_not_empty.
  destruct (cut linha (lit "Trecho:")); [discriminate|]. reflexivity.
Qed.

Lemma inner_loop_aborts (linhas : list str) (resultado_completo : str) (log : list request) :
  existsb unguarded linhas = true ->
  exists e log',
    App.for_each_io (Inner.step env repr) linhas resultado_completo log = (Raise e, log').
Proof.
  revert resultado_completo log.
  induction linhas as [|linha linhas IH]; intros acc log H; [discriminate|].
  cbn [existsb] in H. cbn [App.for_each_io]. unfold Net.bind at 1.
  destruct (unguarded linha) eqn:E.
  - rewrite (inner_step_unguarded acc linha log E). eauto.
  - destruct (Inner.step env repr acc linha log) as [[acc'|e] log1]; [|eauto].
    now apply IH.
Qed.

(** X30.  The analysis of src/veriplagio/veriplagio/app.py parses the
    finding lines outside any [try]: a completion with a line that
    starts, trimmed, with "Trecho" and holds no "Trecho:" makes the whole
    analysis raise. *)
Theorem inner_analysis_aborts (text : str) (log : list request) (r : response)
    (body : value) (content : str) :
  env log (analysis_request text) = Ok r ->
  status_code r = 200%Z ->
  json r = Ok body ->
  completion body = Ok (JStr content) ->
  existsb unguarded (splitlines content) = true ->
  exists e log',
    Inner.analyze_plagiarism_with_source env repr text log = (Raise e, log').
Proof.
  intros H Hs Hj Hc Hx. unfold analysis_request in H.
  unfold Inner.analyze_plagiarism_with_source, Net.bind, send, lift.
  rewrite H. cbv beta iota. rewrite Hs, Hj. cbn [Z.eqb Pos.eqb].
  unfold completion in Hc. cbn [Py.bind] in Hc.
  destruct (getitem body _) as [choices|e]; [|discriminate]. cbn [Py.bind] in Hc.
  destruct (getitem0 choices) as [choice|e]; [|discriminate]. cbn [Py.bind] in Hc.
  destruct (getitem choice _) as [message|e]; [|discriminate]. cbn [Py.bind] in Hc.
  rewrite Hc. cbn [py_splitlines].
  now apply inner_loop_aborts.
Qed.

End InnerMore.

Lemma inner_analysis_aborts_witness :
  exists e log',
    Inner.analyze_plagiarism_with_source
      (answering {| status_code := 200;
                    json := Ok (completion_body (JStr (lit "Trecho sem dois pontos"))) |})
      (fun _ => []) (lit "um texto") []
    = (Raise e, log').
Proof.
  refine (inner_analysis_aborts
            (answering {| status_code := 200;
                          json := Ok (completion_body (JStr (lit "Trecho sem dois pontos"))) |})
            (fun _ => []) (lit "um texto") []
            {| status_code := 200;
               json := Ok (completion_body (JStr (lit "Trecho sem dois pontos"))) |}
            (completion_body (JStr (lit "Trecho sem dois pontos")))
            (lit "Trecho sem dois pontos") _ _ _ _ _);
    vm_compute; reflexivity.
Defined.
